(** * dns-resolver-go: a shallow embedding of the DNS message codec

    The Go program (package [main], final draft) builds one RFC1035 query,
    sends it over UDP and decodes the reply.  This development embeds its
    pure parts: name encoding and decoding, header packing and unpacking,
    the response check, the answer splitter and the record decoders.

    Conventions.
    - [byte] is the Standard Library's 256-element type, a Go [string] is a
      [string], a Go [int] or [uint16] is a [Z] (wrap-around of [uint16]
      arithmetic is written out where the source computes in [uint16]).
    - A Go slice is a window on a backing array: [elems] are the [len]
      visible bytes, [spare] the bytes of the array behind them up to the
      capacity.  Indexing is checked against the length, re-slicing against
      the capacity, as the Go runtime does.
    - A Go call either returns, panics with a runtime error, or (for
      [main]) exits through [log.Fatal].  Loops are run with fuel;
      [OutOfFuel] marks a loop that was cut, and is shown never to occur. *)

From Stdlib Require Import ZArith List Lia Bool.
From Stdlib.Strings Require Import String Ascii Byte.
Import ListNotations.
Open Scope Z_scope.

(** ** Bytes and machine integers *)

Definition Z_of_byte (b : byte) : Z := Z.of_N (Byte.to_N b).

(** Go's conversion [byte(n)]: the low eight bits. *)
Definition byte_of_Z (z : Z) : byte :=
  match Byte.of_N (Z.to_N (z mod 256)) with
  | Some b => b
  | None => x00
  end.

Definition uint16_wrap (z : Z) : Z := z mod 65536.

(** ** Outcomes of a Go call *)

Inductive panic_kind : Type :=
| IndexOutOfRange
| SliceBoundsOutOfRange
| IntegerDivideByZero.

Inductive outcome (A : Type) : Type :=
| Returned (a : A)
| Panic (p : panic_kind)
| Fatal (msg : string)
| OutOfFuel.

Arguments Returned {A} a.
Arguments Panic {A} p.
Arguments Fatal {A} msg.
Arguments OutOfFuel {A}.

Definition bind {A B : Type} (m : outcome A) (k : A -> outcome B) : outcome B :=
  match m with
  | Returned a => k a
  | Panic p => Panic p
  | Fatal msg => Fatal msg
  | OutOfFuel => OutOfFuel
  end.

Notation "x <- m ;; k" := (bind m (fun x => k))
  (at level 61, m at next level, right associativity).

Definition is_panic {A : Type} (m : outcome A) : bool :=
  match m with Panic _ => true | _ => false end.

(** ** Go slices *)

Record slice : Type := mkSlice {
  elems : list byte;   (* the len(s) visible elements *)
  spare : list byte    (* the backing array behind them, up to cap(s) *)
}.

Definition len (s : slice) : Z := Z.of_nat (List.length (elems s)).
Definition cap (s : slice) : Z :=
  Z.of_nat (List.length (elems s) + List.length (spare s)).

(** [s[i]] *)
Definition index (s : slice) (i : Z) : outcome byte :=
  if (0 <=? i) && (i <? len s)
  then Returned (nth (Z.to_nat i) (elems s) x00)
  else Panic IndexOutOfRange.

(** [s[lo:hi]]: allowed when [0 <= lo <= hi <= cap(s)]. *)
Definition reslice (s : slice) (lo hi : Z) : outcome slice :=
  if (0 <=? lo) && (lo <=? hi) && (hi <=? cap s)
  then
    let arr := elems s ++ spare s in
    Returned (mkSlice (firstn (Z.to_nat (hi - lo)) (skipn (Z.to_nat lo) arr))
                      (skipn (Z.to_nat hi) arr))
  else Panic SliceBoundsOutOfRange.

(** [s[lo:]] is [s[lo:len(s)]] and [s[:hi]] is [s[0:hi]]. *)
Definition reslice_from (s : slice) (lo : Z) : outcome slice :=
  reslice s lo (len s).
Definition reslice_to (s : slice) (hi : Z) : outcome slice :=
  reslice s 0 hi.

(** ** encoding/binary, big endian *)

(** [binary.BigEndian.PutUint16] on a fresh two-byte buffer. *)
Definition uint16ToByteSlice (number : Z) : list byte :=
  [byte_of_Z (Z.shiftr number 8); byte_of_Z number].

(** [binary.BigEndian.Uint16(b)]: a bounds check on [b[1]], then
    [uint16(b[1]) | uint16(b[0])<<8]. *)
Definition BigEndian_Uint16 (b : slice) : outcome Z :=
  b1 <- index b 1 ;;
  b0 <- index b 0 ;;
  Returned (Z.lor (Z_of_byte b1) (Z.shiftl (Z_of_byte b0) 8)).

(** [binary.BigEndian.Uint32(b)]: a bounds check on [b[3]]. *)
Definition BigEndian_Uint32 (b : slice) : outcome Z :=
  b3 <- index b 3 ;;
  b2 <- index b 2 ;;
  b1 <- index b 1 ;;
  b0 <- index b 0 ;;
  Returned (Z.lor (Z.lor (Z.lor (Z_of_byte b3) (Z.shiftl (Z_of_byte b2) 8))
                         (Z.shiftl (Z_of_byte b1) 16))
                  (Z.shiftl (Z_of_byte b0) 24)).

(** ** The strings package *)

Definition dot : ascii := "."%char.

(** [strings.Split(s, ".")]: the substrings between dots; never empty. *)
Fixpoint strings_Split (s : string) : list string :=
  match s with
  | EmptyString => [EmptyString]
  | String c rest =>
      if Ascii.eqb c dot then EmptyString :: strings_Split rest
      else match strings_Split rest with
           | section :: sections => String c section :: sections
           | [] => [String c EmptyString]
           end
  end.

(** [strings.Join(parts, ".")] *)
Definition strings_Join (parts : list string) : string :=
  String.concat (String dot EmptyString) parts.

(** ** Data types of the program *)

Record dnsQuestion : Type := mkQuestion {
  qName : list byte;
  qType : Z;
  qClass : Z
}.

Record dnsHeader : Type := mkHeader {
  id : Z;
  flags : Z;
  numQuestions : Z;
  numAnswers : Z;
  numAuthorityRR : Z;
  numAdditionalRR : Z
}.

Record resourceRecordIPv4 : Type := mkRRIPv4 {
  name : string;
  recordType : Z;
  recordClass : Z;
  TTL : Z;
  RDLength : Z;
  RDData : list byte   (* net.IP in its 16-byte form *)
}.

Record resourceRecordNS : Type := mkRRNS {
  ns_name : string;
  ns_recordType : Z;
  ns_recordClass : Z;
  ns_TTL : Z;
  ns_RDLength : Z;
  ns_RDData : string
}.

(** ** Packing *)

Definition packUint16Fields (fields : list Z) : list byte :=
  fold_left (fun packedFields field => packedFields ++ uint16ToByteSlice field)
            fields [].

Definition packHeader (header : dnsHeader) : list byte :=
  packUint16Fields [id header; flags header; numQuestions header;
                    numAnswers header; numAuthorityRR header;
                    numAdditionalRR header].

Definition packQuestion (question : dnsQuestion) : list byte :=
  qName question ++ uint16ToByteSlice (qType question)
                 ++ uint16ToByteSlice (qClass question).

Definition packMessage (header dnsQuestion : list byte) : list byte :=
  header ++ dnsQuestion.

(** [checkResponse]: [None] is Go's [nil] error. *)
Definition checkResponse (header : dnsHeader) : option string :=
  if flags header <? 32767 then Some "No response from DNS server"%string
  else None.

(** ** Names *)

Definition encodeHost (host : string) : list byte :=
  fold_left
    (fun result section =>
       (result ++ [byte_of_Z (Z.of_nat (String.length section))])
         ++ list_byte_of_string section)
    (strings_Split host) []
  ++ [x00].

(** The label scan.  The program walks a run of length-prefixed labels with
    the same loop in [domainLength], [decodeHost], [extractAnswers],
    [unpackAnswers] and [unpackAuthorityAnswer]:
<<
      for shift != 0 { n += int(shift) + 1; shift = s[base+n] }
>>
    with [base] 0 everywhere but in the two record decoders, where it is 12.
    [decodeHost] also records every [shift] in [valueShifts].  Each turn
    moves the index at least two bytes forward and must stay inside the
    slice, so a fuel of [scan_fuel s] is never used up
    (see [label_scan_fuel_enough]). *)
Fixpoint label_scan (fuel : nat) (s : slice) (base : Z) (shift : byte) (n : Z)
    (valueShifts : list Z) : outcome (Z * list Z) :=
  match fuel with
  | O => OutOfFuel
  | S fuel' =>
      if Byte.eqb shift x00 then Returned (n, valueShifts)
      else
        let valueShifts := valueShifts ++ [Z_of_byte shift] in
        let n := n + Z_of_byte shift + 1 in
        shift <- index s (base + n) ;;
        label_scan fuel' s base shift n valueShifts
  end.

Definition scan_fuel (s : slice) : nat := S (List.length (elems s)).

Definition domainLength (message : slice) : outcome Z :=
  shift <- index message 0 ;;
  r <- label_scan (scan_fuel message) message 0 shift 0 [] ;;
  let domainBytes := fst r in
  Returned (domainBytes + 1).

(** The second loop of [decodeHost]: one slice per recorded length. *)
Fixpoint decodeHost_parts (encodedHost : slice) (valueShifts : list Z)
    (sliceStart : Z) (domainParts : list string) : outcome (list string) :=
  match valueShifts with
  | [] => Returned domainParts
  | valueShift :: rest =>
      part <- reslice encodedHost sliceStart (valueShift + sliceStart) ;;
      decodeHost_parts encodedHost rest (sliceStart + valueShift + 1)
        (domainParts ++ [string_of_list_byte (elems part)])
  end.

Definition decodeHost (encodedHost : slice) : outcome string :=
  shift <- index encodedHost 0 ;;
  r <- label_scan (scan_fuel encodedHost) encodedHost 0 shift 0 [] ;;
  let valueShifts := snd r in
  domainParts <- decodeHost_parts encodedHost valueShifts 1 [] ;;
  Returned (strings_Join domainParts).

(** [net.IPv4(a, b, c, d)]: the 16-byte IPv4-in-IPv6 form. *)
Definition net_IPv4 (a b c d : byte) : list byte :=
  [x00; x00; x00; x00; x00; x00; x00; x00; x00; x00; xff; xff; a; b; c; d].

Definition decodeIP (IP : slice) : outcome (list byte) :=
  a <- index IP 0 ;;
  b <- index IP 1 ;;
  c <- index IP 2 ;;
  d <- index IP 3 ;;
  Returned (net_IPv4 a b c d).

(** ** Decoding a response *)

Definition unpackResponseHeader (message : slice) : outcome dnsHeader :=
  headerBytes <- reslice_to message 12 ;;
  f0 <- (b <- reslice_to headerBytes 2 ;; BigEndian_Uint16 b) ;;
  f1 <- (b <- reslice headerBytes 2 4 ;; BigEndian_Uint16 b) ;;
  f2 <- (b <- reslice headerBytes 4 6 ;; BigEndian_Uint16 b) ;;
  f3 <- (b <- reslice headerBytes 6 8 ;; BigEndian_Uint16 b) ;;
  f4 <- (b <- reslice headerBytes 8 10 ;; BigEndian_Uint16 b) ;;
  f5 <- (b <- reslice headerBytes 10 12 ;; BigEndian_Uint16 b) ;;
  Returned (mkHeader f0 f1 f2 f3 f4 f5).

Definition extractAuthorityAnswer (message : slice) : outcome slice :=
  n <- domainLength message ;;
  reslice_from message (n + 4).

(** [binary.BigEndian.Uint16(answer[0:2])]: the first two bytes of a
    record, a compression pointer when above 49152. *)
Definition name_pointer (answer : slice) : outcome Z :=
  b <- reslice answer 0 2 ;;
  BigEndian_Uint16 b.

(** The name of a record that starts with a compression pointer: the part
    shared by [unpackAnswers] and [unpackAuthorityAnswer], up to [fqdn]. *)
Definition referenced_fqdn (message answer : slice) : outcome slice :=
  pointer <- name_pointer answer ;;
  let referenceDomain := uint16_wrap (pointer - 49152) in
  fqdnInitial <- reslice_from message referenceDomain ;;
  shift <- index fqdnInitial 0 ;;
  r <- label_scan (scan_fuel message) message 12 shift 0 [] ;;
  let fqdnBytes := fst r in
  reslice message referenceDomain (referenceDomain + fqdnBytes + 1).

(** [answer[12 : 12+binary.BigEndian.Uint16(answer[10:12])]]; the sum is
    computed in [uint16]. *)
Definition rdata_slice (answer : slice) : outcome slice :=
  b <- reslice answer 10 12 ;;
  rdlength <- BigEndian_Uint16 b ;;
  reslice answer 12 (uint16_wrap (12 + rdlength)).

Definition compressed (answer : slice) : outcome bool :=
  pointer <- name_pointer answer ;;
  Returned (49152 <? pointer).

Definition unpackAuthorityAnswer (message answer : slice)
    : outcome resourceRecordNS :=
  c <- compressed answer ;;
  if (c : bool) then
    fqdn <- referenced_fqdn message answer ;;
    name <- decodeHost fqdn ;;
    recordType <- (b <- reslice answer 2 4 ;; BigEndian_Uint16 b) ;;
    recordClass <- (b <- reslice answer 4 6 ;; BigEndian_Uint16 b) ;;
    TTL <- (b <- reslice answer 6 10 ;; BigEndian_Uint32 b) ;;
    RDLength <- (b <- reslice answer 10 12 ;; BigEndian_Uint16 b) ;;
    RDData <- (b <- rdata_slice answer ;; decodeHost b) ;;
    Returned (mkRRNS name recordType recordClass TTL RDLength RDData)
  else Returned (mkRRNS EmptyString 0 0 0 0 EmptyString).

(** The [for index := range initialAnswer] loop of [extractAnswers]. *)
Fixpoint extractAnswers_range (initialAnswer : slice) (indices : list Z)
    (separator count part : Z) (answers : list slice)
    : outcome (list slice) :=
  match indices with
  | [] => Returned answers
  | index :: rest =>
      if count =? separator then
        a <- reslice initialAnswer part (index + 1) ;;
        extractAnswers_range initialAnswer rest separator 0
          (part + (separator + 1)) (answers ++ [a])
      else
        extractAnswers_range initialAnswer rest separator (count + 1) part
          answers
  end.

Definition range_indices (s : slice) : list Z :=
  map Z.of_nat (seq 0 (List.length (elems s))).

(** The bytes after the question: [message[questionBytes:]]. *)
Definition extractAnswers_initial (message : slice) : outcome slice :=
  shift <- index message 0 ;;
  r <- label_scan (scan_fuel message) message 0 shift 0 [] ;;
  let questionBytes := fst r + 5 in
  reslice_from message questionBytes.

Definition extractAnswers (message : slice) (responseAnswers : Z)
    : outcome (list slice) :=
  initialAnswer <- extractAnswers_initial message ;;
  if responseAnswers =? 0 then Panic IntegerDivideByZero
  else
    let separator := Z.quot (len initialAnswer) responseAnswers - 1 in
    extractAnswers_range initialAnswer (range_indices initialAnswer)
      separator 0 0 [].

(** The body of the loop of [unpackAnswers]: the record of one answer, or
    nothing when its name is not a compression pointer. *)
Definition unpackAnswers_one (message answer : slice)
    : outcome (option resourceRecordIPv4) :=
  c <- compressed answer ;;
  if (c : bool) then
    fqdn <- referenced_fqdn message answer ;;
    name <- decodeHost fqdn ;;
    recordType <- (b <- reslice answer 2 4 ;; BigEndian_Uint16 b) ;;
    recordClass <- (b <- reslice answer 4 6 ;; BigEndian_Uint16 b) ;;
    TTL <- (b <- reslice answer 6 10 ;; BigEndian_Uint32 b) ;;
    RDLength <- (b <- reslice answer 10 12 ;; BigEndian_Uint16 b) ;;
    RDData <- (b <- rdata_slice answer ;; decodeIP b) ;;
    Returned (Some (mkRRIPv4 name recordType recordClass TTL RDLength RDData))
  else Returned None.

Fixpoint unpackAnswers_from (message : slice) (answers : list slice)
    (resourceRecords : list resourceRecordIPv4)
    : outcome (list resourceRecordIPv4) :=
  match answers with
  | [] => Returned resourceRecords
  | answer :: rest =>
      r <- unpackAnswers_one message answer ;;
      match r with
      | Some answerResourceRecord =>
          unpackAnswers_from message rest
            (resourceRecords ++ [answerResourceRecord])
      | None => unpackAnswers_from message rest resourceRecords
      end
  end.

Definition unpackAnswers (message : slice) (answers : list slice)
    : outcome (list resourceRecordIPv4) :=
  unpackAnswers_from message answers [].

(** ** The program's entry point *)

(** What [main] prints after a successful decode. *)
Inductive decoded : Type :=
| AuthorityAnswer (record : resourceRecordNS)
| Answers (records : list resourceRecordIPv4).

(** [main] from the reply on: header, check, then one of the two paths. *)
Definition main_decode (response : slice) : outcome decoded :=
  responseHeader <- unpackResponseHeader response ;;
  responseNoHeader <- reslice_from response 12 ;;
  match checkResponse responseHeader with
  | Some err => Fatal err
  | None =>
      if (numAnswers responseHeader =? 0)
         && (0 <? numAuthorityRR responseHeader)
      then
        authorityAnswer <- extractAuthorityAnswer responseNoHeader ;;
        unpackedAuthorityAnswer <-
          unpackAuthorityAnswer response authorityAnswer ;;
        Returned (AuthorityAnswer unpackedAuthorityAnswer)
      else
        answers <- extractAnswers responseNoHeader
                     (numAnswers responseHeader) ;;
        unpackedResponses <- unpackAnswers response answers ;;
        Returned (Answers unpackedResponses)
  end.

(** [sendMessage] reads the reply into a fresh 64-byte buffer and returns
    [buf[:n]]: at most 64 bytes of the packet, zeroes behind them. *)
Definition received (packet : list byte) : slice :=
  let got := firstn 64 packet in
  mkSlice got (repeat x00 (64 - List.length got)).

Definition host : string := "dns.google.com".

(** [math/rand]'s [Intn] as one run of the program sees it is the
    parameter [rand_Intn]. *)
Definition generateQueryID (rand_Intn : Z -> Z) : Z := rand_Intn 65535.

(** The header [main] sends, and the query built from it. *)
Definition main_sendingHeader (rand_Intn : Z -> Z) : dnsHeader :=
  mkHeader 22 0 1 0 0 0.

Definition main_sendingQuestion : dnsQuestion :=
  mkQuestion (encodeHost host) 1 1.

Definition main_message (rand_Intn : Z -> Z) : list byte :=
  packMessage (packHeader (main_sendingHeader rand_Intn))
              (packQuestion main_sendingQuestion).

(** ** Auxiliary definitions used by the statements *)

(** One label on the wire: its length byte, then its bytes. *)
Definition encode_label (section : string) : list byte :=
  byte_of_Z (Z.of_nat (String.length section)) :: list_byte_of_string section.

(** The values a [uint16] can hold. *)
Definition uint16_range (z : Z) : Prop := 0 <= z < 65536.

Definition header_in_range (h : dnsHeader) : Prop :=
  uint16_range (id h) /\ uint16_range (flags h)
  /\ uint16_range (numQuestions h) /\ uint16_range (numAnswers h)
  /\ uint16_range (numAuthorityRR h) /\ uint16_range (numAdditionalRR h).

(** The response check as the specification words it: the QR bit, bit 15
    of the flags, is set and the response carries the id of the query. *)
Definition spec_response_valid (queryID : Z) (h : dnsHeader) : Prop :=
  Z.testbit (flags h) 15 = true /\ id h = queryID.

(** A label that its one length byte can describe. *)
Definition wire_label (section : string) : Prop :=
  (1 <= String.length section <= 255)%nat.

(** A name as the specification wants it: every label has 1 to 63 bytes
    and the encoding has at most 255. *)
Definition valid_name (host : string) : Prop :=
  Forall (fun section => (1 <= String.length section <= 63)%nat)
         (strings_Split host)
  /\ (List.length (encodeHost host) <= 255)%nat.

(** The outcomes of a Go call that neither exits the process nor is cut
    for lack of fuel. *)
Definition returns_or_panics {A : Type} (m : outcome A) : Prop :=
  match m with
  | Returned _ | Panic _ => True
  | Fatal _ | OutOfFuel => False
  end.

(** The [j]-th window of [size] bytes of a slice, as [s[j*size:(j+1)*size]]
    gives it. *)
Definition even_chunk (s : slice) (size j : nat) : slice :=
  mkSlice (firstn size (skipn (j * size) (elems s)))
          (skipn (j * size + size) (elems s) ++ spare s).

(** The span of a resource record as the specification words it: the
    length of its name (two bytes for a compression pointer), ten bytes of
    type, class, ttl and rdlength, and rdlength bytes of data. *)
Definition spec_name_length (record : slice) : outcome Z :=
  first <- index record 0 ;;
  if 192 <=? Z_of_byte first then Returned 2 else domainLength record.

Definition spec_record_span (record : slice) : outcome Z :=
  n <- spec_name_length record ;;
  b <- reslice record (n + 8) (n + 10) ;;
  rdlength <- BigEndian_Uint16 b ;;
  Returned (n + 10 + rdlength).

(** The names the specification wants [encodeHost] to refuse: an empty
    label, a label of more than 63 bytes, or an encoding of more than 255
    bytes. *)
Definition spec_invalid_label (host : string) : bool :=
  existsb (fun section =>
             (String.length section =? 0)%nat
             || (63 <? String.length section)%nat)
          (strings_Split host)
  || (255 <? List.length (encodeHost host))%nat.

(** ** Sample replies *)

Definition bytes_of (l : list Z) : list byte := map byte_of_Z l.

(** A reply header: id 22, flags 0x8180, one question, [answers] answers. *)
Definition sample_header (answers : Z) : list Z :=
  [0; 22; 129; 128; 0; 1; 0; answers; 0; 0; 0; 0].

(** The question for the name a, type A, class IN: offsets 12 to 18. *)
Definition sample_question : list Z := [1; 97; 0; 0; 1; 0; 1].

(** An A record of 16 bytes whose name is the pointer [pointer_low]. *)
Definition sample_A (pointer_low : Z) : list Z :=
  [192; pointer_low; 0; 1; 0; 1; 0; 0; 0; 60; 0; 4; 1; 2; 3; 4].

(** An AAAA record of 28 bytes whose name points at offset 12. *)
Definition sample_AAAA : list Z :=
  [192; 12; 0; 28; 0; 1; 0; 0; 0; 60; 0; 16;
   1; 2; 3; 4; 5; 6; 7; 8; 9; 10; 11; 12; 13; 14; 15; 16].

(** One answer whose name points at its own first byte, offset 19. *)
Definition self_pointer_reply : slice :=
  received (bytes_of (sample_header 1 ++ sample_question ++ sample_A 19)).

Definition self_pointer_answer : slice :=
  mkSlice (bytes_of (sample_A 19)) (repeat x00 29).

(** Two answers of different sizes, 16 and 28 bytes. *)
Definition mixed_reply : slice :=
  received (bytes_of (sample_header 2 ++ sample_question
                        ++ sample_A 12 ++ sample_AAAA)).

(** The bytes that a list of label lengths accounts for: each label and
    its length byte. *)
Definition labels_span (valueShifts : list Z) : Z :=
  fold_right (fun valueShift total => valueShift + 1 + total) 0 valueShifts.

(** ** Well-formed records, for the statements about whole replies *)

(** The eight bytes of type, class and ttl of a record on the wire. *)
Record envelope : Type := mkEnvelope {
  type1 : byte; type0 : byte;
  class1 : byte; class0 : byte;
  ttl3 : byte; ttl2 : byte; ttl1 : byte; ttl0 : byte
}.

Definition envelope_bytes (e : envelope) : list byte :=
  [type1 e; type0 e; class1 e; class0 e; ttl3 e; ttl2 e; ttl1 e; ttl0 e].

Definition envelope_type (e : envelope) : Z :=
  Z_of_byte (type1 e) * 256 + Z_of_byte (type0 e).
Definition envelope_class (e : envelope) : Z :=
  Z_of_byte (class1 e) * 256 + Z_of_byte (class0 e).
Definition envelope_ttl (e : envelope) : Z :=
  Z_of_byte (ttl3 e) * 16777216 + Z_of_byte (ttl2 e) * 65536
  + Z_of_byte (ttl1 e) * 256 + Z_of_byte (ttl0 e).

(** A record of 16 bytes: a pointer to offset 12, the envelope, an
    rdlength of 4 and four address bytes. *)
Definition A_record_wire (r : envelope * (byte * byte * byte * byte))
    : list byte :=
  let '(e, (a, b, c, d)) := r in
  [xc0; x0c] ++ envelope_bytes e ++ [x00; x04; a; b; c; d].

Definition A_record_decoded (host : string)
    (r : envelope * (byte * byte * byte * byte)) : resourceRecordIPv4 :=
  let '(e, (a, b, c, d)) := r in
  mkRRIPv4 host (envelope_type e) (envelope_class e) (envelope_ttl e) 4
           (net_IPv4 a b c d).

(** A record whose name is a pointer to offset 12 and whose data is a name
    written out in labels. *)
Definition NS_record_wire (e : envelope) (target : string) : list byte :=
  [xc0; x0c] ++ envelope_bytes e
  ++ uint16ToByteSlice (Z.of_nat (List.length (encodeHost target)))
  ++ encodeHost target.

(** The bounds that every record returned by [unpackAnswers] keeps. *)
Definition record_in_bounds (r : resourceRecordIPv4) : Prop :=
  4 <= RDLength r <= 65523
  /\ List.length (RDData r) = 16%nat
  /\ uint16_range (recordType r) /\ uint16_range (recordClass r)
  /\ 0 <= TTL r < 4294967296.

(** * Properties *)

(** ** Bytes *)

Lemma Z_of_byte_range (b : byte) : 0 <= Z_of_byte b <= 255.
Proof.
  unfold Z_of_byte. pose proof (Byte.to_N_bounded b). lia.
Qed.

Lemma byte_of_Z_of_byte (b : byte) : byte_of_Z (Z_of_byte b) = b.
Proof.
  unfold byte_of_Z. pose proof (Z_of_byte_range b) as Hb.
  rewrite Z.mod_small by lia.
  unfold Z_of_byte. rewrite N2Z.id, Byte.of_to_N. reflexivity.
Qed.

Lemma Z_of_byte_of_Z (z : Z) : Z_of_byte (byte_of_Z z) = z mod 256.
Proof.
  unfold byte_of_Z, Z_of_byte.
  pose proof (Z.mod_pos_bound z 256 ltac:(lia)) as Hm.
  destruct (Byte.of_N (Z.to_N (z mod 256))) as [b|] eqn:E.
  - apply Byte.to_of_N in E. rewrite E. lia.
  - apply Byte.of_N_None_iff in E. lia.
Qed.

Lemma Z_of_byte_inj (a b : byte) : Z_of_byte a = Z_of_byte b -> a = b.
Proof.
  intros H. rewrite <- (byte_of_Z_of_byte a), <- (byte_of_Z_of_byte b).
  now rewrite H.
Qed.

Lemma byte_eqb_x00 (b : byte) : Byte.eqb b x00 = (Z_of_byte b =? 0).
Proof.
  destruct (Byte.eqb b x00) eqn:E.
  - apply Byte.byte_dec_bl in E. subst b. reflexivity.
  - symmetry. apply Z.eqb_neq. intros H.
    assert (b = x00) by (apply Z_of_byte_inj; rewrite H; reflexivity).
    subst b. discriminate.
Qed.

(** ** Lists built by repeated [append] *)

Lemma fold_left_app_flat_map {A B : Type} (f : A -> list B) (l : list A)
    (init : list B) :
  fold_left (fun acc x => acc ++ f x) l init = init ++ flat_map f l.
Proof.
  revert init. induction l as [|x l IH]; intros init; simpl.
  - now rewrite app_nil_r.
  - rewrite IH. now rewrite app_assoc.
Qed.

(** ** strings.Split and strings.Join *)

Lemma strings_Split_not_nil (s : string) : strings_Split s <> [].
Proof.
  destruct s as [|c rest]; simpl; [discriminate|].
  destruct (Ascii.eqb c dot); [discriminate|].
  destruct (strings_Split rest); discriminate.
Qed.

Lemma strings_Join_Split (s : string) : strings_Join (strings_Split s) = s.
Proof.
  unfold strings_Join. induction s as [|c rest IH]; simpl; [reflexivity|].
  destruct (Ascii.eqb c dot) eqn:E.
  - apply Ascii.eqb_eq in E. subst c.
    pose proof (strings_Split_not_nil rest) as Hne.
    destruct (strings_Split rest) as [|x xs] eqn:Es; [contradiction|].
    cbn [String.concat]. cbn [String.concat] in IH.
    destruct xs; simpl in *; now rewrite IH.
  - pose proof (strings_Split_not_nil rest) as Hne.
    destruct (strings_Split rest) as [|x xs] eqn:Es; [contradiction|].
    cbn [String.concat] in *.
    destruct xs; simpl in *; now rewrite IH.
Qed.

(** The sections of a name, with one separator each, add up to the name
    and one more byte. *)
Lemma strings_Split_total_length (s : string) :
  list_sum (map (fun section => S (String.length section)) (strings_Split s))
  = S (String.length s).
Proof.
  induction s as [|c rest IH]; simpl; [reflexivity|].
  destruct (Ascii.eqb c dot).
  - simpl. now rewrite IH.
  - pose proof (strings_Split_not_nil rest) as Hne.
    destruct (strings_Split rest) as [|x xs]; [contradiction|].
    simpl in *. lia.
Qed.

Lemma length_list_byte_of_string (s : string) :
  List.length (list_byte_of_string s) = String.length s.
Proof.
  unfold list_byte_of_string. rewrite length_map.
  induction s; simpl; congruence.
Qed.

(** ** encodeHost *)

Lemma encodeHost_loop_flat_map (sections : list string) (init : list byte) :
  fold_left
    (fun result section =>
       (result ++ [byte_of_Z (Z.of_nat (String.length section))])
         ++ list_byte_of_string section)
    sections init
  = init ++ flat_map encode_label sections.
Proof.
  revert init. induction sections as [|x xs IH]; intros init; simpl.
  - now rewrite app_nil_r.
  - rewrite IH. unfold encode_label. rewrite <- !app_assoc. reflexivity.
Qed.

Lemma encodeHost_flat_map (host : string) :
  encodeHost host = flat_map encode_label (strings_Split host) ++ [x00].
Proof.
  unfold encodeHost. now rewrite encodeHost_loop_flat_map.
Qed.

Lemma length_flat_map_encode_label (sections : list string) :
  List.length (flat_map encode_label sections)
  = list_sum (map (fun section => S (String.length section)) sections).
Proof.
  induction sections as [|x xs IH]; simpl; [reflexivity|].
  rewrite length_app, IH, length_list_byte_of_string. reflexivity.
Qed.

(** C10: [encodeHost] is a total function from strings to byte sequences;
    on every string [host] its result has exactly [len(host) + 2] bytes and
    ends with the terminator byte 0. *)
Theorem encodeHost_length_terminator (host : string) :
  List.length (encodeHost host) = (String.length host + 2)%nat
  /\ (exists front, encodeHost host = front ++ [x00])
  /\ nth (String.length host + 1) (encodeHost host) x01 = x00.
Proof.
  assert (Hl : List.length (flat_map encode_label (strings_Split host))
               = S (String.length host)).
  { rewrite length_flat_map_encode_label. apply strings_Split_total_length. }
  rewrite encodeHost_flat_map. repeat split.
  - rewrite length_app, Hl. simpl. lia.
  - eexists. reflexivity.
  - rewrite app_nth2 by lia. rewrite Hl.
    replace (String.length host + 1 - S (String.length host))%nat with 0%nat
      by lia.
    reflexivity.
Qed.

(** ** Slices *)

Lemma len_nonneg (s : slice) : 0 <= len s.
Proof. unfold len. lia. Qed.

Lemma len_le_cap (s : slice) : len s <= cap s.
Proof. unfold len, cap. lia. Qed.

Lemma index_in_range (s : slice) (i : Z) :
  0 <= i < len s -> index s i = Returned (nth (Z.to_nat i) (elems s) x00).
Proof.
  intros H. unfold index.
  replace ((0 <=? i) && (i <? len s)) with true; [reflexivity|].
  symmetry. apply andb_true_iff. split; [apply Z.leb_le|apply Z.ltb_lt]; lia.
Qed.

Lemma index_out_of_range (s : slice) (i : Z) :
  len s <= i -> index s i = Panic IndexOutOfRange.
Proof.
  intros H. unfold index.
  replace (i <? len s) with false; [now rewrite andb_false_r|].
  symmetry. apply Z.ltb_ge. lia.
Qed.

Lemma index_not_OutOfFuel (s : slice) (i : Z) : index s i <> OutOfFuel.
Proof. unfold index. destruct (_ && _); discriminate. Qed.

Lemma index_Returned_range (s : slice) (i : Z) (b : byte) :
  index s i = Returned b -> 0 <= i < len s.
Proof.
  unfold index. destruct ((0 <=? i) && (i <? len s)) eqn:E; [|discriminate].
  apply andb_true_iff in E. destruct E as [E1 E2].
  apply Z.leb_le in E1. apply Z.ltb_lt in E2. lia.
Qed.

(** Re-slicing inside the visible part does not look at the spare bytes. *)
Lemma reslice_within (s : slice) (lo hi : Z) :
  0 <= lo <= hi -> hi <= len s ->
  reslice s lo hi
  = Returned (mkSlice
                (firstn (Z.to_nat (hi - lo)) (skipn (Z.to_nat lo) (elems s)))
                (skipn (Z.to_nat hi) (elems s) ++ spare s)).
Proof.
  intros Hlo Hhi. unfold reslice. pose proof (len_le_cap s) as Hc.
  replace ((0 <=? lo) && (lo <=? hi) && (hi <=? cap s)) with true.
  2:{ symmetry. rewrite !andb_true_iff. repeat split; apply Z.leb_le; lia. }
  unfold len in Hhi. f_equal. f_equal.
  - rewrite skipn_app, firstn_app.
    replace (Z.to_nat lo - List.length (elems s))%nat with 0%nat by lia.
    rewrite length_skipn.
    replace (Z.to_nat (hi - lo) - (List.length (elems s) - Z.to_nat lo))%nat
      with 0%nat by lia.
    simpl. now rewrite app_nil_r.
  - rewrite skipn_app.
    replace (Z.to_nat hi - List.length (elems s))%nat with 0%nat by lia.
    reflexivity.
Qed.

Lemma reslice_not_OutOfFuel (s : slice) (lo hi : Z) :
  reslice s lo hi <> OutOfFuel.
Proof. unfold reslice. destruct (_ && _); discriminate. Qed.

(** ** Big-endian integers *)

Lemma uint16_bytes_value (hi lo : byte) :
  Z.lor (Z_of_byte lo) (Z.shiftl (Z_of_byte hi) 8)
  = Z_of_byte hi * 256 + Z_of_byte lo.
Proof.
  pose proof (Z_of_byte_range hi) as Hh. pose proof (Z_of_byte_range lo) as Hl.
  rewrite Z.shiftl_mul_pow2 by lia. change (2 ^ 8) with 256.
  assert (Hd : Z.land (Z_of_byte hi * 256) (Z_of_byte lo) = 0).
  2:{ rewrite Z.lor_comm, <- Z.lxor_lor, <- Z.add_nocarry_lxor by exact Hd.
      reflexivity. }
  apply Z.bits_inj'. intros n Hn. rewrite Z.land_spec, Z.bits_0.
  destruct (Z.ltb_spec n 8).
  - replace (Z_of_byte hi * 256) with (Z_of_byte hi * 2 ^ 8) by lia.
    rewrite Z.mul_pow2_bits_low by lia. reflexivity.
  - rewrite (Z.bits_above_log2 (Z_of_byte lo)); [apply andb_false_r|lia|].
    destruct (Z.eq_dec (Z_of_byte lo) 0) as [E|E]; [rewrite E; simpl; lia|].
    apply Z.log2_lt_pow2; [lia|].
    apply Z.lt_le_trans with (2 ^ 8); [change (2 ^ 8) with 256; lia|].
    apply Z.pow_le_mono_r; lia.
Qed.

Lemma BigEndian_Uint16_two (hi lo : byte) (rest : list byte) :
  BigEndian_Uint16 (mkSlice [hi; lo] rest)
  = Returned (Z_of_byte hi * 256 + Z_of_byte lo).
Proof.
  unfold BigEndian_Uint16.
  change (index (mkSlice [hi; lo] rest) 1) with (Returned lo).
  change (index (mkSlice [hi; lo] rest) 0) with (Returned hi).
  cbn [bind]. now rewrite uint16_bytes_value.
Qed.

Lemma uint16ToByteSlice_value (number : Z) :
  0 <= number < 65536 ->
  Z_of_byte (byte_of_Z (Z.shiftr number 8)) * 256
  + Z_of_byte (byte_of_Z number) = number.
Proof.
  intros H. rewrite !Z_of_byte_of_Z. rewrite Z.shiftr_div_pow2 by lia.
  change (2 ^ 8) with 256.
  rewrite (Z.mod_small (number / 256)).
  - pose proof (Z.div_mod number 256 ltac:(lia)). lia.
  - split; [apply Z.div_pos; lia|apply Z.div_lt_upper_bound; lia].
Qed.

Lemma BigEndian_Uint16_range (b : slice) (v : Z) :
  BigEndian_Uint16 b = Returned v -> uint16_range v.
Proof.
  unfold BigEndian_Uint16, bind.
  destruct (index b 1) as [b1| | |]; try discriminate.
  destruct (index b 0) as [b0| | |]; try discriminate.
  rewrite uint16_bytes_value. intros H. injection H as H. subst v.
  pose proof (Z_of_byte_range b1). pose proof (Z_of_byte_range b0).
  unfold uint16_range. lia.
Qed.

(** ** The header *)

Lemma unpackResponseHeader_bytes
    (b0 b1 b2 b3 b4 b5 b6 b7 b8 b9 b10 b11 : byte) (rest behind : list byte) :
  unpackResponseHeader
    (mkSlice ([b0; b1; b2; b3; b4; b5; b6; b7; b8; b9; b10; b11] ++ rest)
             behind)
  = Returned (mkHeader (Z_of_byte b0 * 256 + Z_of_byte b1)
                       (Z_of_byte b2 * 256 + Z_of_byte b3)
                       (Z_of_byte b4 * 256 + Z_of_byte b5)
                       (Z_of_byte b6 * 256 + Z_of_byte b7)
                       (Z_of_byte b8 * 256 + Z_of_byte b9)
                       (Z_of_byte b10 * 256 + Z_of_byte b11)).
Proof.
  unfold unpackResponseHeader, reslice_to.
  rewrite reslice_within
    by (unfold len; cbn [elems]; rewrite ?length_app; cbn [List.length]; lia).
  cbn [elems spare app]. change (Z.to_nat (12 - 0)) with 12%nat.
  change (Z.to_nat 0) with 0%nat. change (Z.to_nat 12) with 12%nat.
  cbn [firstn skipn bind].
  repeat (rewrite reslice_within by (cbn; lia);
          cbn [elems spare bind];
          match goal with
          | |- context [firstn (Z.to_nat ?a) (skipn (Z.to_nat ?b) ?l)] =>
              let r := eval cbv in (firstn (Z.to_nat a) (skipn (Z.to_nat b) l))
              in change (firstn (Z.to_nat a) (skipn (Z.to_nat b) l)) with r
          end;
          rewrite BigEndian_Uint16_two; cbn [bind]).
  reflexivity.
Qed.

Lemma packHeader_bytes (h : dnsHeader) :
  packHeader h
  = uint16ToByteSlice (id h) ++ uint16ToByteSlice (flags h)
    ++ uint16ToByteSlice (numQuestions h) ++ uint16ToByteSlice (numAnswers h)
    ++ uint16ToByteSlice (numAuthorityRR h)
    ++ uint16ToByteSlice (numAdditionalRR h).
Proof.
  unfold packHeader, packUint16Fields. rewrite fold_left_app_flat_map.
  cbn [flat_map app]. now rewrite app_nil_r.
Qed.

Lemma unpackResponseHeader_range (message : slice) (h : dnsHeader) :
  unpackResponseHeader message = Returned h -> header_in_range h.
Proof.
  unfold unpackResponseHeader, bind.
  destruct (reslice_to message 12) as [hb| | |]; try discriminate.
  repeat match goal with
  | |- context [match reslice ?s ?a ?b with _ => _ end] =>
      destruct (reslice s a b) as [?| | |]; try discriminate
  | |- context [match reslice_to ?s ?b with _ => _ end] =>
      destruct (reslice_to s b) as [?| | |]; try discriminate
  | |- context [match BigEndian_Uint16 ?s with _ => _ end] =>
      let E := fresh "E" in
      destruct (BigEndian_Uint16 s) as [?| | |] eqn:E; try discriminate;
      apply BigEndian_Uint16_range in E
  end.
  intros H. injection H as <-. unfold header_in_range. cbn. tauto.
Qed.

(** C9: for every header whose six fields fit in 16 bits, unpacking the
    12 bytes that [packHeader] produces gives the header back, whatever
    lies behind those bytes in the buffer. *)
Theorem unpackResponseHeader_packHeader (h : dnsHeader) (behind : list byte) :
  header_in_range h ->
  List.length (packHeader h) = 12%nat
  /\ unpackResponseHeader (mkSlice (packHeader h) behind) = Returned h.
Proof.
  intros (H0 & H1 & H2 & H3 & H4 & H5). split.
  - rewrite packHeader_bytes. reflexivity.
  - rewrite packHeader_bytes. unfold uint16ToByteSlice. cbn [app].
    rewrite <- (app_nil_r [_; _; _; _; _; _; _; _; _; _; _; _]).
    rewrite unpackResponseHeader_bytes.
    rewrite !uint16ToByteSlice_value by assumption.
    destruct h; reflexivity.
Qed.

Lemma unpackResponseHeader_packHeader_witness :
  header_in_range (mkHeader 22 256 1 0 0 0)
  /\ List.length (packHeader (mkHeader 22 256 1 0 0 0)) = 12%nat
  /\ unpackResponseHeader (mkSlice (packHeader (mkHeader 22 256 1 0 0 0)) [])
     = Returned (mkHeader 22 256 1 0 0 0).
Proof.
  assert (H : header_in_range (mkHeader 22 256 1 0 0 0))
    by (unfold header_in_range, uint16_range; cbn; lia).
  split; [exact H|].
  exact (unpackResponseHeader_packHeader (mkHeader 22 256 1 0 0 0) [] H).
Defined.

(** ** The response check *)

Lemma testbit_15_uint16 (z : Z) :
  uint16_range z -> Z.testbit z 15 = (32768 <=? z).
Proof.
  unfold uint16_range. intros H.
  destruct (Z.leb_spec 32768 z) as [Hz|Hz].
  - apply Z.testbit_true; [lia|]. change (2 ^ 15) with 32768.
    assert (z / 32768 = 1); [|now replace (z / 32768) with 1].
    symmetry. apply Z.div_unique with (z - 32768); lia.
  - apply Z.testbit_false; [lia|]. change (2 ^ 15) with 32768.
    now rewrite Z.div_small by lia.
Qed.

(** C5, as the code has it: for every decoded response header whose
    flags are not 32767, the check accepts the response exactly when the QR
    bit (bit 15 of the flags) is set; the response id plays no part, and a
    rejected response gets the one untyped error of the program. *)
Theorem checkResponse_QR_bit (message : slice) (h : dnsHeader) :
  unpackResponseHeader message = Returned h ->
  flags h <> 32767 ->
  (checkResponse h = None <-> Z.testbit (flags h) 15 = true)
  /\ (Z.testbit (flags h) 15 = false ->
      checkResponse h = Some "No response from DNS server"%string)
  /\ (forall otherID : Z,
        checkResponse (mkHeader otherID (flags h) (numQuestions h)
                         (numAnswers h) (numAuthorityRR h)
                         (numAdditionalRR h))
        = checkResponse h).
Proof.
  intros Hd Hf. apply unpackResponseHeader_range in Hd.
  destruct Hd as (_ & Hr & _). rewrite (testbit_15_uint16 _ Hr).
  unfold checkResponse. cbn [flags].
  destruct (Z.ltb_spec (flags h) 32767) as [Hlt|Hge];
    destruct (Z.leb_spec 32768 (flags h)) as [Hle|Hgt]; try lia;
    repeat split; intros; try discriminate; try reflexivity.
Qed.

Lemma checkResponse_QR_bit_witness :
  unpackResponseHeader (mkSlice (packHeader (mkHeader 22 33152 1 1 0 0)) [])
  = Returned (mkHeader 22 33152 1 1 0 0)
  /\ flags (mkHeader 22 33152 1 1 0 0) <> 32767
  /\ (checkResponse (mkHeader 22 33152 1 1 0 0) = None
      <-> Z.testbit 33152 15 = true).
Proof.
  assert (H1 : unpackResponseHeader
                 (mkSlice (packHeader (mkHeader 22 33152 1 1 0 0)) [])
               = Returned (mkHeader 22 33152 1 1 0 0)) by reflexivity.
  assert (H2 : flags (mkHeader 22 33152 1 1 0 0) <> 32767) by (cbn; lia).
  split; [exact H1|]. split; [exact H2|].
  exact (proj1 (checkResponse_QR_bit _ _ H1 H2)).
Defined.

(** C5, counterexample: a response with the QR bit set and id 23 passes
    the check of a query whose id is 22. *)
Lemma checkResponse_accepts_foreign_id :
  ~ (checkResponse (mkHeader 23 32768 1 1 0 0) = None
     <-> spec_response_valid 22 (mkHeader 23 32768 1 1 0 0)).
Proof.
  intros [H _]. specialize (H eq_refl). destruct H as [_ H].
  cbn in H. discriminate.
Qed.

(** ** Decoding an encoded name *)

Lemma nth_app_hd {A : Type} (l1 l2 : list A) (d : A) :
  nth (List.length l1) (l1 ++ l2) d = hd d l2.
Proof.
  rewrite app_nth2 by lia. rewrite Nat.sub_diag. now destruct l2.
Qed.

Lemma firstn_length_app {A : Type} (l1 l2 : list A) (n : nat) :
  n = List.length l1 -> firstn n (l1 ++ l2) = l1.
Proof.
  intros ->. rewrite firstn_app, Nat.sub_diag, firstn_all. cbn [firstn].
  apply app_nil_r.
Qed.

Lemma skipn_length_app {A : Type} (l1 l2 : list A) (n : nat) :
  n = List.length l1 -> skipn n (l1 ++ l2) = l2.
Proof.
  intros ->. rewrite skipn_app, Nat.sub_diag, skipn_all. reflexivity.
Qed.

Lemma length_encode_label (section : string) :
  List.length (encode_label section) = S (String.length section).
Proof.
  unfold encode_label. cbn [List.length].
  now rewrite length_list_byte_of_string.
Qed.

Lemma label_length_byte (section : string) :
  (String.length section <= 255)%nat ->
  Z_of_byte (byte_of_Z (Z.of_nat (String.length section)))
  = Z.of_nat (String.length section).
Proof.
  intros H. rewrite Z_of_byte_of_Z. apply Z.mod_small. lia.
Qed.

(** The first loop on a run of encoded labels: it stops on the terminator
    and has recorded the length of every label. *)
Lemma label_scan_encoded (s : slice) (post : list byte) :
  forall (sections : list string) (pre : list byte) (acc : list Z)
         (fuel : nat),
    Forall wire_label sections ->
    elems s = pre ++ flat_map encode_label sections ++ x00 :: post ->
    (List.length sections < fuel)%nat ->
    label_scan fuel s 0
      (hd x00 (flat_map encode_label sections ++ x00 :: post))
      (Z.of_nat (List.length pre)) acc
    = Returned
        (Z.of_nat (List.length pre
                   + List.length (flat_map encode_label sections)),
         acc ++ map (fun x => Z.of_nat (String.length x)) sections).
Proof.
  induction sections as [|x xs IH]; intros pre acc fuel Hok He Hf.
  - destruct fuel as [|fuel]; [simpl in Hf; lia|].
    cbn. now rewrite Nat.add_0_r, app_nil_r.
  - destruct fuel as [|fuel]; [simpl in Hf; lia|].
    inversion Hok as [|? ? Hx Hxs]; subst.
    cbn [flat_map] in *. unfold encode_label at 1. cbn [app hd].
    cbn [label_scan]. rewrite byte_eqb_x00.
    unfold wire_label in Hx. rewrite label_length_byte by lia.
    replace (Z.of_nat (String.length x) =? 0) with false
      by (symmetry; apply Z.eqb_neq; lia).
    assert (He' : elems s
                  = (pre ++ encode_label x)
                      ++ flat_map encode_label xs ++ x00 :: post).
    { rewrite He. now rewrite <- !app_assoc. }
    assert (Hl : Z.of_nat (List.length pre) + Z.of_nat (String.length x) + 1
                 = Z.of_nat (List.length (pre ++ encode_label x))).
    { rewrite length_app, length_encode_label. lia. }
    rewrite Z.add_0_l, Hl.
    rewrite index_in_range.
    2:{ unfold len. rewrite He', !length_app. cbn [List.length]. lia. }
    rewrite Nat2Z.id. rewrite He' at 1. rewrite nth_app_hd. cbn [bind].
    rewrite (IH (pre ++ encode_label x) _ fuel Hxs He')
      by (simpl in Hf; lia).
    rewrite !length_app, <- app_assoc. cbn [map app].
    f_equal. f_equal. lia.
Qed.

(** The second loop, on the same bytes: it cuts the labels out again. *)
Lemma decodeHost_parts_encoded (s : slice) :
  forall (sections : list string) (pre post : list byte)
         (domainParts : list string),
    elems s = pre ++ flat_map encode_label sections ++ post ->
    decodeHost_parts s
      (map (fun x => Z.of_nat (String.length x)) sections)
      (Z.of_nat (List.length pre) + 1) domainParts
    = Returned (domainParts ++ sections).
Proof.
  induction sections as [|x xs IH]; intros pre post domainParts He.
  - cbn. now rewrite app_nil_r.
  - cbn [map decodeHost_parts flat_map] in *.
    assert (Hlen : List.length (elems s)
                   = (List.length pre + S (String.length x)
                      + List.length (flat_map encode_label xs ++ post))%nat).
    { rewrite He, !length_app, length_encode_label. lia. }
    rewrite reslice_within by (unfold len; lia).
    cbn [bind elems].
    replace (Z.to_nat (Z.of_nat (String.length x)
                       + (Z.of_nat (List.length pre) + 1)
                       - (Z.of_nat (List.length pre) + 1)))
      with (String.length x) by lia.
    replace (Z.to_nat (Z.of_nat (List.length pre) + 1))
      with (List.length (pre ++ [byte_of_Z (Z.of_nat (String.length x))]))
      by (rewrite length_app; cbn [List.length]; lia).
    assert (He2 : elems s
                  = (pre ++ [byte_of_Z (Z.of_nat (String.length x))])
                      ++ list_byte_of_string x
                      ++ flat_map encode_label xs ++ post).
    { rewrite He. unfold encode_label. rewrite <- !app_assoc. reflexivity. }
    rewrite He2 at 1. rewrite skipn_length_app by reflexivity.
    rewrite firstn_length_app
      by (now rewrite length_list_byte_of_string).
    rewrite string_of_list_byte_of_string.
    replace (Z.of_nat (List.length pre) + 1 + Z.of_nat (String.length x) + 1)
      with (Z.of_nat (List.length (pre ++ encode_label x)) + 1)
      by (rewrite length_app, length_encode_label; lia).
    rewrite (IH (pre ++ encode_label x) post).
    + now rewrite <- app_assoc.
    + rewrite He. now rewrite <- !app_assoc.
Qed.

Lemma length_sections_le (sections : list string) :
  (List.length sections <= List.length (flat_map encode_label sections))%nat.
Proof.
  induction sections as [|x xs IH]; [apply Nat.le_refl|].
  cbn [flat_map List.length]. rewrite length_app, length_encode_label.
  simpl. lia.
Qed.

(** Decoding the encoding of a name whose labels all fit their length
    byte. *)
Lemma decode_encoded_labels (host : string) (behind : list byte) :
  Forall wire_label (strings_Split host) ->
  decodeHost (mkSlice (encodeHost host) behind) = Returned host.
Proof.
  intros Hok. set (s := mkSlice (encodeHost host) behind).
  assert (He : elems s
               = [] ++ flat_map encode_label (strings_Split host)
                    ++ x00 :: []).
  { cbn [s elems app]. apply encodeHost_flat_map. }
  unfold decodeHost.
  rewrite index_in_range.
  2:{ unfold len. rewrite He, length_app. cbn [List.length app]. 
      rewrite length_app. cbn [List.length]. lia. }
  cbn [bind]. change (Z.to_nat 0) with (List.length (@nil byte)).
  rewrite He at 1. rewrite nth_app_hd.
  change 0 with (Z.of_nat (List.length (@nil byte))) at 1.
  rewrite (label_scan_encoded s [] (strings_Split host) [] [] _ Hok He).
  2:{ unfold scan_fuel. rewrite He. cbn [app]. rewrite length_app.
      pose proof (length_sections_le (strings_Split host)). lia. }
  cbn [bind snd app].
  change 1 with (Z.of_nat (List.length (@nil byte)) + 1).
  rewrite (decodeHost_parts_encoded s (strings_Split host) [] [x00] []).
  - cbn [bind app]. now rewrite strings_Join_Split.
  - exact He.
Qed.

(** C3: for every name whose labels have 1 to 63 bytes each and whose
    encoding has at most 255 bytes, decoding the encoding gives the name
    back, whatever lies behind the encoding in the buffer. *)
Theorem decodeHost_encodeHost (host : string) (behind : list byte) :
  valid_name host ->
  decodeHost (mkSlice (encodeHost host) behind) = Returned host.
Proof.
  intros [Hlabels _]. apply decode_encoded_labels.
  eapply Forall_impl; [|exact Hlabels].
  intros section H. cbv beta in H. unfold wire_label. lia.
Qed.

Lemma decodeHost_encodeHost_witness :
  valid_name "example.org"
  /\ decodeHost (mkSlice (encodeHost "example.org") []) = Returned "example.org"%string.
Proof.
  assert (H : valid_name "example.org").
  { split; [cbn; repeat (constructor; [cbn; lia|]); constructor|cbn; lia]. }
  split; [exact H|].
  exact (decodeHost_encodeHost "example.org" [] H).
Defined.

(** C8: [encodeHost] on the name dns.google.com gives the sixteen bytes
    3 d n s 6 g o o g l e 3 c o m 0, and [decodeHost] on those bytes gives
    the name back. *)
Theorem encodeHost_decodeHost_dns_google_com :
  encodeHost "dns.google.com"
  = map byte_of_Z [3; 100; 110; 115; 6; 103; 111; 111; 103; 108; 101; 3; 99;
                   111; 109; 0]
  /\ forall behind : list byte,
       decodeHost
         (mkSlice (map byte_of_Z [3; 100; 110; 115; 6; 103; 111; 111; 103;
                                  108; 101; 3; 99; 111; 109; 0]) behind)
       = Returned "dns.google.com"%string.
Proof.
  assert (He : encodeHost "dns.google.com"
               = map byte_of_Z [3; 100; 110; 115; 6; 103; 111; 111; 103; 108;
                                101; 3; 99; 111; 109; 0])
    by (vm_compute; reflexivity).
  split; [exact He|].
  intros behind. rewrite <- He. apply decode_encoded_labels.
  cbn. unfold wire_label. repeat (constructor; [cbn; lia|]). constructor.
Qed.

(** ** Termination: the loops never use up their fuel *)

Lemma index_returns_or_panics (s : slice) (i : Z) :
  returns_or_panics (index s i).
Proof. unfold index. destruct (_ && _); exact I. Qed.

Lemma reslice_returns_or_panics (s : slice) (lo hi : Z) :
  returns_or_panics (reslice s lo hi).
Proof. unfold reslice. destruct (_ && _); exact I. Qed.

Lemma returns_or_panics_terminates {A : Type} (m : outcome A) :
  returns_or_panics m -> m <> OutOfFuel.
Proof. destruct m; cbn; intros H; try discriminate; contradiction. Qed.

Lemma bind_returns_or_panics {A B : Type} (m : outcome A)
    (k : A -> outcome B) :
  returns_or_panics m ->
  (forall a, m = Returned a -> returns_or_panics (k a)) ->
  returns_or_panics (bind m k).
Proof.
  intros Hm Hk. destruct m; cbn [bind]; try exact Hm. now apply Hk.
Qed.

(** Every turn of the scan moves strictly forward inside the slice. *)
Lemma label_scan_fuel_enough (s : slice) (base : Z) :
  0 <= base ->
  forall (fuel : nat) (shift : byte) (n : Z) (acc : list Z),
    0 <= n ->
    (Z.to_nat (len s - (base + n)) < fuel)%nat ->
    returns_or_panics (label_scan fuel s base shift n acc).
Proof.
  intros Hbase. induction fuel as [|fuel IH]; intros shift n acc Hn Hf.
  - lia.
  - cbn [label_scan]. destruct (Byte.eqb shift x00); [exact I|].
    pose proof (Z_of_byte_range shift) as Hs.
    apply bind_returns_or_panics; [apply index_returns_or_panics|].
    intros b E. apply index_Returned_range in E. apply IH; lia.
Qed.

(** More fuel does not change what a finished loop returned. *)
Lemma label_scan_fuel_mono (s : slice) (base : Z) :
  forall (fuel : nat) (shift : byte) (n : Z) (acc : list Z)
         (r : outcome (Z * list Z)),
    label_scan fuel s base shift n acc = r -> r <> OutOfFuel ->
    forall more : nat, label_scan (fuel + more) s base shift n acc = r.
Proof.
  induction fuel as [|fuel IH]; intros shift n acc r Hr Hne more.
  - cbn in Hr. congruence.
  - cbn [Nat.add label_scan] in *.
    destruct (Byte.eqb shift x00); [exact Hr|].
    destruct (index s (base + (n + Z_of_byte shift + 1))) as [b|p|m|];
      cbn [bind] in *; try exact Hr.
    now apply IH.
Qed.

Lemma label_scan_start_returns_or_panics (s : slice) (base : Z)
    (shift : byte) :
  0 <= base ->
  returns_or_panics (label_scan (scan_fuel s) s base shift 0 []).
Proof.
  intros Hbase. apply label_scan_fuel_enough; [exact Hbase|lia|].
  unfold scan_fuel, len. lia.
Qed.

Create HintDb go_outcome.

#[local] Hint Resolve index_returns_or_panics reslice_returns_or_panics
  : go_outcome.

#[local] Hint Extern 1
  (returns_or_panics (label_scan (scan_fuel _) _ _ _ 0 [])) =>
  apply label_scan_start_returns_or_panics; lia : go_outcome.

#[local] Hint Extern 1 (returns_or_panics (Returned _)) => exact I
  : go_outcome.
#[local] Hint Extern 1 (returns_or_panics (Panic _)) => exact I : go_outcome.

(** Walk down a chain of binds, closing each step from the hint database. *)
Ltac go_outcome :=
  repeat match goal with
    | |- returns_or_panics (bind _ _) =>
        apply bind_returns_or_panics; [|intros ? _]
    | |- returns_or_panics (if ?c then _ else _) => destruct c
    | |- returns_or_panics (match ?x with Some _ => _ | None => _ end) =>
        destruct x
    | |- returns_or_panics (let _ := _ in _) => cbv zeta
    end;
  auto with go_outcome.

Lemma BigEndian_Uint16_returns_or_panics (b : slice) :
  returns_or_panics (BigEndian_Uint16 b).
Proof. unfold BigEndian_Uint16. go_outcome. Qed.

Lemma BigEndian_Uint32_returns_or_panics (b : slice) :
  returns_or_panics (BigEndian_Uint32 b).
Proof. unfold BigEndian_Uint32. go_outcome. Qed.

Lemma decodeIP_returns_or_panics (IP : slice) :
  returns_or_panics (decodeIP IP).
Proof. unfold decodeIP. go_outcome. Qed.

#[local] Hint Resolve BigEndian_Uint16_returns_or_panics
  BigEndian_Uint32_returns_or_panics decodeIP_returns_or_panics : go_outcome.

Lemma decodeHost_parts_returns_or_panics (encodedHost : slice) :
  forall (valueShifts : list Z) (sliceStart : Z) (domainParts : list string),
    returns_or_panics
      (decodeHost_parts encodedHost valueShifts sliceStart domainParts).
Proof.
  induction valueShifts as [|v vs IH]; intros sliceStart domainParts;
    cbn [decodeHost_parts]; go_outcome.
Qed.

#[local] Hint Resolve decodeHost_parts_returns_or_panics : go_outcome.

Lemma domainLength_returns_or_panics (message : slice) :
  returns_or_panics (domainLength message).
Proof. unfold domainLength. go_outcome. Qed.

Lemma decodeHost_returns_or_panics (encodedHost : slice) :
  returns_or_panics (decodeHost encodedHost).
Proof. unfold decodeHost. go_outcome. Qed.

#[local] Hint Resolve domainLength_returns_or_panics
  decodeHost_returns_or_panics : go_outcome.

Lemma unpackResponseHeader_returns_or_panics (message : slice) :
  returns_or_panics (unpackResponseHeader message).
Proof. unfold unpackResponseHeader, reslice_to. go_outcome. Qed.

Lemma extractAuthorityAnswer_returns_or_panics (message : slice) :
  returns_or_panics (extractAuthorityAnswer message).
Proof. unfold extractAuthorityAnswer, reslice_from. go_outcome. Qed.

Lemma name_pointer_returns_or_panics (answer : slice) :
  returns_or_panics (name_pointer answer).
Proof. unfold name_pointer. go_outcome. Qed.

#[local] Hint Resolve name_pointer_returns_or_panics : go_outcome.

Lemma referenced_fqdn_returns_or_panics (message answer : slice) :
  returns_or_panics (referenced_fqdn message answer).
Proof. unfold referenced_fqdn, reslice_from. go_outcome. Qed.

Lemma rdata_slice_returns_or_panics (answer : slice) :
  returns_or_panics (rdata_slice answer).
Proof. unfold rdata_slice. go_outcome. Qed.

Lemma compressed_returns_or_panics (answer : slice) :
  returns_or_panics (compressed answer).
Proof. unfold compressed. go_outcome. Qed.

#[local] Hint Resolve unpackResponseHeader_returns_or_panics
  extractAuthorityAnswer_returns_or_panics referenced_fqdn_returns_or_panics
  rdata_slice_returns_or_panics compressed_returns_or_panics : go_outcome.

Lemma unpackAuthorityAnswer_returns_or_panics (message answer : slice) :
  returns_or_panics (unpackAuthorityAnswer message answer).
Proof. unfold unpackAuthorityAnswer. go_outcome. Qed.

Lemma unpackAnswers_one_returns_or_panics (message answer : slice) :
  returns_or_panics (unpackAnswers_one message answer).
Proof. unfold unpackAnswers_one. go_outcome. Qed.

#[local] Hint Resolve unpackAuthorityAnswer_returns_or_panics
  unpackAnswers_one_returns_or_panics : go_outcome.

Lemma unpackAnswers_from_returns_or_panics (message : slice) :
  forall (answers : list slice) (resourceRecords : list resourceRecordIPv4),
    returns_or_panics (unpackAnswers_from message answers resourceRecords).
Proof.
  induction answers as [|a rest IH]; intros resourceRecords;
    cbn [unpackAnswers_from]; go_outcome.
Qed.

Lemma unpackAnswers_returns_or_panics (message : slice)
    (answers : list slice) :
  returns_or_panics (unpackAnswers message answers).
Proof. apply unpackAnswers_from_returns_or_panics. Qed.

Lemma extractAnswers_range_returns_or_panics (initialAnswer : slice) :
  forall (indices : list Z) (separator count part : Z)
         (answers : list slice),
    returns_or_panics
      (extractAnswers_range initialAnswer indices separator count part
         answers).
Proof.
  induction indices as [|i rest IH]; intros separator count part answers;
    cbn [extractAnswers_range]; go_outcome.
Qed.

#[local] Hint Resolve unpackAnswers_returns_or_panics
  extractAnswers_range_returns_or_panics : go_outcome.

Lemma extractAnswers_initial_returns_or_panics (message : slice) :
  returns_or_panics (extractAnswers_initial message).
Proof. unfold extractAnswers_initial, reslice_from. go_outcome. Qed.

#[local] Hint Resolve extractAnswers_initial_returns_or_panics : go_outcome.

Lemma extractAnswers_returns_or_panics (message : slice)
    (responseAnswers : Z) :
  returns_or_panics (extractAnswers message responseAnswers).
Proof. unfold extractAnswers. go_outcome. Qed.

#[local] Hint Resolve extractAnswers_returns_or_panics : go_outcome.

(** ** Decoding a reply: what can come out *)

Lemma returns_or_panics_cases {A : Type} (m : outcome A) :
  returns_or_panics m ->
  (exists a, m = Returned a) \/ (exists p, m = Panic p).
Proof.
  destruct m; cbn; intros H; try contradiction; eauto.
Qed.

Lemma main_decode_cases (response : slice) :
  returns_or_panics (main_decode response)
  \/ main_decode response = Fatal "No response from DNS server".
Proof.
  unfold main_decode.
  pose proof (unpackResponseHeader_returns_or_panics response) as Hh.
  destruct (unpackResponseHeader response) as [h|p|m|]; cbn [bind];
    try contradiction; [|left; exact I].
  pose proof (reslice_returns_or_panics response 12 (len response)) as Hr.
  unfold reslice_from.
  destruct (reslice response 12 (len response)) as [r|p|m|]; cbn [bind];
    try contradiction; [|left; exact I].
  unfold checkResponse. destruct (flags h <? 32767); [right; reflexivity|].
  left. go_outcome.
Qed.

Lemma main_decode_short (response : slice) :
  len response < 12 -> exists p, main_decode response = Panic p.
Proof.
  intros Hlen. unfold main_decode.
  pose proof (unpackResponseHeader_returns_or_panics response) as Hh.
  destruct (unpackResponseHeader response) as [h|p|m|]; cbn [bind];
    try contradiction; [|eauto].
  unfold reslice_from, reslice.
  replace (12 <=? len response) with false by (symmetry; apply Z.leb_gt; lia).
  rewrite andb_false_r. cbn. eauto.
Qed.

(** C1, as the code has it: on every reply buffer the decoding of [main]
    terminates, no loop runs on for ever, and it ends in a decoded value,
    in the fatal exit of the response check, or in a Go runtime panic;
    there is no typed error for a malformed message, and a reply shorter
    than the 12-byte header always ends in a panic. *)
Theorem main_decode_terminates (response : slice) :
  main_decode response <> OutOfFuel
  /\ ((exists d, main_decode response = Returned d)
      \/ main_decode response = Fatal "No response from DNS server"
      \/ (exists p, main_decode response = Panic p))
  /\ (len response < 12 -> exists p, main_decode response = Panic p).
Proof.
  split; [|split].
  - destruct (main_decode_cases response) as [H|H].
    + now apply returns_or_panics_terminates.
    + rewrite H. discriminate.
  - destruct (main_decode_cases response) as [H|H].
    + apply returns_or_panics_cases in H. tauto.
    + tauto.
  - apply main_decode_short.
Qed.

Lemma main_decode_terminates_witness :
  len (received [x00; x16; x81; x80; x00]) < 12
  /\ exists p, main_decode (received [x00; x16; x81; x80; x00]) = Panic p.
Proof.
  assert (H : len (received [x00; x16; x81; x80; x00]) < 12) by (cbn; lia).
  split; [exact H|].
  exact (proj2 (proj2 (main_decode_terminates
                         (received [x00; x16; x81; x80; x00]))) H).
Defined.

(** C1, counterexample: a reply that is only a header, with the QR bit set
    and one answer declared, makes the decoding panic on an index out of
    range. *)
Lemma main_decode_panics_on_truncated_reply :
  main_decode (received (map byte_of_Z [0; 22; 129; 128; 0; 1; 0; 1; 0; 0; 0; 0]))
  = Panic IndexOutOfRange.
Proof. vm_compute. reflexivity. Qed.

(** ** Compression pointers that point at a pointer *)

Lemma name_pointer_range (answer : slice) (pointer : Z) :
  name_pointer answer = Returned pointer -> uint16_range pointer.
Proof.
  unfold name_pointer, bind.
  destruct (reslice answer 0 2) as [b| | |]; try discriminate.
  apply BigEndian_Uint16_range.
Qed.

(** The first byte of [s[lo:]] is [s[lo]]. *)
Lemma reslice_from_index_0 (s t : slice) (lo : Z) (b : byte) :
  reslice_from s lo = Returned t -> index t 0 = Returned b ->
  index s lo = Returned b.
Proof.
  unfold reslice_from, reslice.
  destruct ((0 <=? lo) && (lo <=? len s) && (len s <=? cap s)) eqn:C;
    [|discriminate].
  rewrite !andb_true_iff in C. destruct C as [[Hlo0 Hlo1] _].
  apply Z.leb_le in Hlo0, Hlo1. intros Ht Hb. injection Ht as Ht. subst t.
  pose proof (index_Returned_range _ _ _ Hb) as Hr.
  rewrite index_in_range in Hb by exact Hr. injection Hb as Hb.
  unfold len in Hr, Hlo1. cbn [elems] in Hr, Hb.
  rewrite length_firstn, length_skipn, length_app in Hr.
  assert (Hlo : (Z.to_nat lo < List.length (elems s))%nat) by lia.
  rewrite index_in_range by (unfold len; lia). f_equal.
  rewrite <- Hb. change (Z.to_nat 0) with 0%nat.
  rewrite skipn_app.
  replace (Z.to_nat lo - List.length (elems s))%nat with 0%nat by lia.
  cbn [skipn].
  rewrite firstn_app, length_skipn.
  replace (Z.to_nat (len s - lo) - (List.length (elems s) - Z.to_nat lo))%nat
    with 0%nat by (unfold len; lia).
  cbn [firstn]. rewrite app_nil_r.
  replace (Z.to_nat (len s - lo))
    with (List.length (skipn (Z.to_nat lo) (elems s)))
    by (rewrite length_skipn; unfold len; lia).
  rewrite firstn_all, nth_skipn. f_equal. lia.
Qed.

(** A scan that starts on a pointer byte jumps past offset 204. *)
Lemma label_scan_pointer_byte (message : slice) (shift : byte) :
  192 <= Z_of_byte shift -> len message <= 205 ->
  label_scan (scan_fuel message) message 12 shift 0 []
  = Panic IndexOutOfRange.
Proof.
  intros Hs Hl. unfold scan_fuel. cbn [label_scan].
  rewrite byte_eqb_x00.
  replace (Z_of_byte shift =? 0) with false
    by (symmetry; apply Z.eqb_neq; lia).
  now rewrite index_out_of_range by lia.
Qed.

Lemma referenced_fqdn_pointer_to_pointer (message answer : slice)
    (pointer : Z) :
  name_pointer answer = Returned pointer ->
  49152 < pointer ->
  (forall b, index message (pointer - 49152) = Returned b ->
             192 <= Z_of_byte b) ->
  len message <= 205 ->
  exists p, referenced_fqdn message answer = Panic p.
Proof.
  intros Hp Hgt Htarget Hlen. unfold referenced_fqdn.
  rewrite Hp. cbn [bind].
  pose proof (name_pointer_range _ _ Hp) as Hr. unfold uint16_range in Hr.
  unfold uint16_wrap. rewrite Z.mod_small by lia.
  pose proof (reslice_returns_or_panics message (pointer - 49152)
                (len message)) as Hrs.
  unfold reslice_from at 1.
  destruct (reslice message (pointer - 49152) (len message))
    as [fqdnInitial|p|m|] eqn:E; cbn [bind]; try contradiction; [|eauto].
  pose proof (index_returns_or_panics fqdnInitial 0) as Hi.
  destruct (index fqdnInitial 0) as [shift|p|m|] eqn:E0; cbn [bind];
    try contradiction; [|eauto].
  rewrite label_scan_pointer_byte; [cbn [bind]; eauto| |exact Hlen].
  apply Htarget. eapply reslice_from_index_0; eassumption.
Qed.

(** C2, as the code has it: decoding the name of a record always
    terminates, but the program keeps no set of visited offsets, bounds no
    hop count and has no typed error for a loop; it follows one pointer and
    then scans label lengths.  When the pointer of a record points at a
    pointer byte (itself included) in a message of at most 205 bytes, both
    record decoders end in a runtime panic. *)
Theorem unpack_pointer_to_pointer (message answer : slice) :
  (forall answers, unpackAnswers message answers <> OutOfFuel)
  /\ unpackAuthorityAnswer message answer <> OutOfFuel
  /\ (forall pointer : Z,
        name_pointer answer = Returned pointer ->
        49152 < pointer ->
        (forall b, index message (pointer - 49152) = Returned b ->
                   192 <= Z_of_byte b) ->
        len message <= 205 ->
        (exists p, forall rest,
            unpackAnswers message (answer :: rest) = Panic p)
        /\ (exists p, unpackAuthorityAnswer message answer = Panic p)).
Proof.
  split; [|split].
  - intros answers.
    apply returns_or_panics_terminates, unpackAnswers_returns_or_panics.
  - apply returns_or_panics_terminates,
      unpackAuthorityAnswer_returns_or_panics.
  - intros pointer Hp Hgt Htarget Hlen.
    destruct (referenced_fqdn_pointer_to_pointer _ _ _ Hp Hgt Htarget Hlen)
      as [p Hf].
    assert (Hc : compressed answer = Returned true).
    { unfold compressed. rewrite Hp. cbn [bind].
      now replace (49152 <? pointer) with true
        by (symmetry; apply Z.ltb_lt; lia). }
    split; exists p; [intros rest|].
    + unfold unpackAnswers. cbn [unpackAnswers_from].
      unfold unpackAnswers_one. rewrite Hc, Hf. reflexivity.
    + unfold unpackAuthorityAnswer. rewrite Hc, Hf. reflexivity.
Qed.

Lemma unpack_pointer_to_pointer_witness :
  name_pointer self_pointer_answer = Returned 49171
  /\ 49152 < 49171
  /\ (forall b, index self_pointer_reply (49171 - 49152) = Returned b ->
                192 <= Z_of_byte b)
  /\ len self_pointer_reply <= 205
  /\ (exists p, forall rest,
         unpackAnswers self_pointer_reply (self_pointer_answer :: rest)
         = Panic p)
  /\ (exists p, unpackAuthorityAnswer self_pointer_reply self_pointer_answer
                = Panic p).
Proof.
  assert (H1 : name_pointer self_pointer_answer = Returned 49171)
    by (vm_compute; reflexivity).
  assert (H2 : 49152 < 49171) by lia.
  assert (H3 : forall b, index self_pointer_reply (49171 - 49152) = Returned b
                         -> 192 <= Z_of_byte b).
  { intros b Hb. vm_compute in Hb. injection Hb as <-. vm_compute.
    discriminate. }
  assert (H4 : len self_pointer_reply <= 205) by (vm_compute; discriminate).
  repeat (split; [assumption|]).
  exact (proj2 (proj2 (unpack_pointer_to_pointer self_pointer_reply
                         self_pointer_answer)) 49171 H1 H2 H3 H4).
Defined.

(** C2, counterexample: a reply whose one answer has a name that points at
    itself.  [extractAnswers] hands that answer to [unpackAnswers], which
    panics on an index out of range. *)
Lemma unpackAnswers_self_pointer_panics :
  (responseNoHeader <- reslice_from self_pointer_reply 12 ;;
   extractAnswers responseNoHeader 1) = Returned [self_pointer_answer]
  /\ unpackAnswers self_pointer_reply [self_pointer_answer]
     = Panic IndexOutOfRange
  /\ main_decode self_pointer_reply = Panic IndexOutOfRange.
Proof. vm_compute. repeat split. Qed.

(** ** Splitting the answers *)

(** With a negative separator the counter never meets it. *)
Lemma extractAnswers_range_none (initialAnswer : slice) (separator : Z) :
  separator < 0 ->
  forall (indices : list Z) (count part : Z) (answers : list slice),
    0 <= count ->
    extractAnswers_range initialAnswer indices separator count part answers
    = Returned answers.
Proof.
  intros Hs. induction indices as [|i rest IH]; intros count part answers Hc;
    cbn [extractAnswers_range]; [reflexivity|].
  replace (count =? separator) with false
    by (symmetry; apply Z.eqb_neq; lia).
  apply IH. lia.
Qed.

Lemma reslice_even_chunk (s : slice) (size k : nat) :
  (1 <= size)%nat ->
  (k * size + size <= List.length (elems s))%nat ->
  reslice s (Z.of_nat (k * size)) (Z.of_nat (k * size + (size - 1)) + 1)
  = Returned (even_chunk s size k).
Proof.
  intros Hs H. rewrite reslice_within by (unfold len; lia).
  unfold even_chunk. remember (k * size)%nat as p. f_equal. f_equal.
  - f_equal; [lia|f_equal; lia].
  - f_equal. f_equal. lia.
Qed.

(** The loop from index [i] on, [k] windows emitted and [c] bytes into the
    next one: it emits the remaining whole windows. *)
Lemma extractAnswers_range_chunks (initialAnswer : slice) (size : nat) :
  (1 <= size)%nat ->
  forall (m i k c : nat) (answers : list slice),
    (i + m = List.length (elems initialAnswer))%nat ->
    i = (k * size + c)%nat -> (c < size)%nat ->
    extractAnswers_range initialAnswer (map Z.of_nat (seq i m))
      (Z.of_nat size - 1) (Z.of_nat c) (Z.of_nat (k * size)) answers
    = Returned (answers
                ++ map (even_chunk initialAnswer size)
                       (seq k ((c + m) / size))).
Proof.
  intros Hsize. induction m as [|m IH]; intros i k c answers Hi Hk Hc.
  - cbn [seq map extractAnswers_range]. rewrite Nat.add_0_r.
    rewrite Nat.div_small by exact Hc. cbn. now rewrite app_nil_r.
  - cbn [seq map extractAnswers_range].
    destruct (Z.eqb_spec (Z.of_nat c) (Z.of_nat size - 1)) as [E|E].
    + assert (Ec : c = (size - 1)%nat) by lia. subst c.
      rewrite Hk. rewrite reslice_even_chunk by lia. cbn [bind].
      replace (Z.of_nat (k * size) + (Z.of_nat size - 1 + 1))
        with (Z.of_nat (S k * size)) by (cbn [Nat.mul]; lia).
      rewrite <- Hk.
      rewrite (IH (S i) (S k) 0%nat) by (cbn [Nat.mul]; lia).
      rewrite <- app_assoc. cbn [app]. f_equal.
      replace (size - 1 + S m)%nat with (m + 1 * size)%nat by lia.
      rewrite Nat.div_add by lia. cbn [Nat.add].
      rewrite Nat.add_comm. reflexivity.
    + replace (Z.of_nat c + 1) with (Z.of_nat (S c)) by lia.
      rewrite (IH (S i) k (S c)) by lia.
      now replace (S c + m)%nat with (c + S m)%nat by lia.
Qed.

Lemma even_chunk_length (s : slice) (size j : nat) :
  (j < List.length (elems s) / size)%nat ->
  List.length (elems (even_chunk s size j)) = size.
Proof.
  intros Hj. destruct size as [|size]; [cbn in Hj; lia|].
  cbn [even_chunk elems]. rewrite length_firstn, length_skipn.
  pose proof (Nat.div_mod_eq (List.length (elems s)) (S size)) as Hd.
  assert ((j + 1) * S size <= S size * (List.length (elems s) / S size))%nat
    by (rewrite Nat.mul_comm; apply Nat.mul_le_mono_l; lia).
  lia.
Qed.

(** C4, as the code has it: the bytes after the question are cut into
    consecutive windows of one common size, the whole quotient of their
    number by the answer count; the window of the i-th record starts at i
    times that size, whatever the name and rdlength of any record say. *)
Theorem extractAnswers_even_split (message initialAnswer : slice)
    (responseAnswers : Z) :
  extractAnswers_initial message = Returned initialAnswer ->
  responseAnswers <> 0 ->
  let size := Z.to_nat (Z.quot (len initialAnswer) responseAnswers) in
  let answers :=
    map (even_chunk initialAnswer size)
        (seq 0 (List.length (elems initialAnswer) / size)) in
  extractAnswers message responseAnswers = Returned answers
  /\ Forall (fun answer =>
               len answer = Z.quot (len initialAnswer) responseAnswers)
            answers.
Proof.
  intros Hi Hn size answers. split.
  - unfold extractAnswers. rewrite Hi. cbn [bind].
    replace (responseAnswers =? 0) with false
      by (symmetry; now apply Z.eqb_neq).
    destruct (Z.ltb_spec (Z.quot (len initialAnswer) responseAnswers) 1)
      as [Hq|Hq].
    + rewrite extractAnswers_range_none by lia.
      unfold answers. replace size with 0%nat by (unfold size; lia).
      reflexivity.
    + replace (Z.quot (len initialAnswer) responseAnswers)
        with (Z.of_nat size) by (unfold size; lia).
      unfold range_indices.
      change 0 with (Z.of_nat 0) at 1. change 0 with (Z.of_nat (0 * size)).
      rewrite (extractAnswers_range_chunks initialAnswer size)
        by (unfold size; lia).
      reflexivity.
  - unfold answers. apply Forall_forall. intros a Ha.
    apply in_map_iff in Ha. destruct Ha as (j & <- & Hj).
    apply in_seq in Hj. unfold len at 1.
    rewrite even_chunk_length by lia.
    destruct (Z.ltb_spec (Z.quot (len initialAnswer) responseAnswers) 0)
      as [Hq|Hq]; [|unfold size; lia].
    replace size with 0%nat in Hj by (unfold size; lia). cbn in Hj. lia.
Qed.

Lemma extractAnswers_even_split_witness :
  (exists initialAnswer,
     extractAnswers_initial
       (mkSlice (bytes_of (sample_question ++ sample_A 12 ++ sample_AAAA)) [])
     = Returned initialAnswer
     /\ extractAnswers
          (mkSlice (bytes_of (sample_question ++ sample_A 12 ++ sample_AAAA))
                   []) 2
        = Returned [even_chunk initialAnswer 22 0;
                    even_chunk initialAnswer 22 1])
  /\ 2 <> 0.
Proof.
  split; [|lia].
  eexists. split; [vm_compute; reflexivity|].
  exact (proj1 (extractAnswers_even_split
                  (mkSlice (bytes_of (sample_question ++ sample_A 12
                                        ++ sample_AAAA)) [])
                  _ 2 eq_refl ltac:(lia))).
Defined.

(** C4, counterexample: a reply with a 16-byte record and a 28-byte record.
    The first window [extractAnswers] cuts has 22 bytes, while the record
    in it spans 2 + 10 + 4 = 16. *)
Lemma extractAnswers_mixed_sizes :
  match (responseNoHeader <- reslice_from mixed_reply 12 ;;
         extractAnswers responseNoHeader 2) with
  | Returned (first :: _) =>
      len first = 22 /\ spec_record_span first = Returned 16
  | _ => False
  end.
Proof. vm_compute. split; reflexivity. Qed.

(** ** The query *)

(** C6: the header of the query does not depend on the random source.  In
    every run the id is 22, so the first two bytes of the query are 0 and
    22, and two runs send the same query; [generateQueryID] is not called
    on the way. *)
Theorem main_query_id_static (rand_Intn rand_Intn' : Z -> Z) :
  id (main_sendingHeader rand_Intn) = 22
  /\ firstn 2 (main_message rand_Intn) = [x00; x16]
  /\ main_message rand_Intn = main_message rand_Intn'.
Proof. repeat split. Qed.

(** ** Names that the specification refuses *)

Lemma byte_of_Z_mod (z : Z) : byte_of_Z (z mod 256) = byte_of_Z z.
Proof.
  unfold byte_of_Z. now rewrite Z.mod_mod by lia.
Qed.

(** C7, as the code has it: [encodeHost] checks nothing and cannot fail.
    For every name it returns, label by label, one byte holding the length
    of the label modulo 256 and then the bytes of the label, and a closing
    0; an empty label comes out as a 0 byte. *)
Theorem encodeHost_no_validation (host : string) :
  encodeHost host
  = flat_map (fun section =>
                byte_of_Z (Z.of_nat (String.length section) mod 256)
                  :: list_byte_of_string section)
             (strings_Split host)
    ++ [x00].
Proof.
  rewrite encodeHost_flat_map. f_equal. apply flat_map_ext.
  intros section. unfold encode_label. now rewrite byte_of_Z_mod.
Qed.

(** C7, counterexample: three names the specification refuses, one with an
    empty label, one with a label of 64 bytes, one with an encoding of 256
    bytes; [encodeHost] returns a byte sequence for each. *)
Lemma encodeHost_accepts_invalid_names :
  let label64 :=
    "aaaaaaaaaaaaaaaaaaaaaaaaaaaaaaaaaaaaaaaaaaaaaaaaaaaaaaaaaaaaaaaa"%string in
  let label50 :=
    "bbbbbbbbbbbbbbbbbbbbbbbbbbbbbbbbbbbbbbbbbbbbbbbbbb"%string in
  let long_name :=
    String.concat "." [label50; label50; label50; label50; label50] in
  spec_invalid_label "a..b" = true
  /\ encodeHost "a..b" = bytes_of [1; 97; 0; 1; 98; 0]
  /\ spec_invalid_label label64 = true
  /\ encodeHost label64 = bytes_of [64] ++ list_byte_of_string label64 ++ [x00]
  /\ forallb (fun section => (1 <=? String.length section)%nat
                             && (String.length section <=? 63)%nat)
             (strings_Split long_name) = true
  /\ spec_invalid_label long_name = true
  /\ List.length (encodeHost long_name) = 256%nat.
Proof. vm_compute. repeat split. Qed.

(** * Further properties of the codec *)

(** ** Slices, once more *)

Lemma reslice_out_of_bounds (s : slice) (lo hi : Z) :
  lo < 0 \/ hi < lo \/ cap s < hi ->
  reslice s lo hi = Panic SliceBoundsOutOfRange.
Proof.
  intros H. unfold reslice.
  replace ((0 <=? lo) && (lo <=? hi) && (hi <=? cap s)) with false;
    [reflexivity|].
  symmetry. rewrite !andb_false_iff, !Z.leb_gt. tauto.
Qed.

Lemma reslice_in_bounds (s : slice) (lo hi : Z) :
  0 <= lo <= hi -> hi <= cap s ->
  reslice s lo hi
  = Returned
      (mkSlice (firstn (Z.to_nat (hi - lo))
                       (skipn (Z.to_nat lo) (elems s ++ spare s)))
               (skipn (Z.to_nat hi) (elems s ++ spare s))).
Proof.
  intros Hlo Hhi. unfold reslice.
  replace ((0 <=? lo) && (lo <=? hi) && (hi <=? cap s)) with true;
    [reflexivity|].
  symmetry. rewrite !andb_true_iff, !Z.leb_le. tauto.
Qed.

Lemma cap_backing_array (s : slice) :
  cap s = Z.of_nat (List.length (elems s ++ spare s)).
Proof. unfold cap. now rewrite length_app. Qed.

(** ** The header, read from the backing array *)

Lemma uint16ToByteSlice_bytes (hi lo : byte) :
  uint16ToByteSlice (Z_of_byte hi * 256 + Z_of_byte lo) = [hi; lo].
Proof.
  pose proof (Z_of_byte_range hi) as Hh. pose proof (Z_of_byte_range lo) as Hl.
  unfold uint16ToByteSlice. f_equal; [|f_equal].
  - rewrite Z.shiftr_div_pow2 by lia. change (2 ^ 8) with 256.
    replace ((Z_of_byte hi * 256 + Z_of_byte lo) / 256) with (Z_of_byte hi).
    + apply byte_of_Z_of_byte.
    + apply Z.div_unique with (Z_of_byte lo); lia.
  - rewrite <- byte_of_Z_mod.
    replace ((Z_of_byte hi * 256 + Z_of_byte lo) mod 256) with (Z_of_byte lo).
    + apply byte_of_Z_of_byte.
    + apply Z.mod_unique with (Z_of_byte hi); lia.
Qed.

(** [unpackResponseHeader] looks at the backing array only. *)
Lemma unpackResponseHeader_backing_array (message : slice) :
  unpackResponseHeader message
  = unpackResponseHeader
      (mkSlice (firstn 12 (elems message ++ spare message))
               (skipn 12 (elems message ++ spare message))).
Proof.
  unfold unpackResponseHeader, reslice_to, reslice.
  rewrite !cap_backing_array. cbn [elems spare].
  now rewrite firstn_skipn.
Qed.

Lemma list_of_length_12 {A : Type} (l : list A) :
  List.length l = 12%nat ->
  exists b0 b1 b2 b3 b4 b5 b6 b7 b8 b9 b10 b11,
    l = [b0; b1; b2; b3; b4; b5; b6; b7; b8; b9; b10; b11].
Proof.
  intros H.
  do 12 (destruct l as [|? l]; [discriminate|]).
  destruct l; [|discriminate]. repeat eexists.
Qed.

(** X1: [unpackResponseHeader] panics exactly when the capacity of the
    buffer is below 12.  Otherwise it returns a header whose packing is the
    first 12 bytes of the backing array, so that a reply shorter than 12
    bytes in a longer buffer is completed with the bytes behind it. *)
Theorem unpackResponseHeader_capacity (message : slice) :
  (cap message < 12 ->
   unpackResponseHeader message = Panic SliceBoundsOutOfRange)
  /\ (12 <= cap message ->
      exists h, unpackResponseHeader message = Returned h
                /\ header_in_range h
                /\ packHeader h
                   = firstn 12 (elems message ++ spare message)).
Proof.
  split.
  - intros Hc. unfold unpackResponseHeader, reslice_to.
    now rewrite reslice_out_of_bounds by lia.
  - intros Hc. rewrite unpackResponseHeader_backing_array.
    assert (Hl : List.length (firstn 12 (elems message ++ spare message))
                 = 12%nat).
    { rewrite length_firstn. rewrite cap_backing_array in Hc. lia. }
    destruct (list_of_length_12 _ Hl)
      as (b0 & b1 & b2 & b3 & b4 & b5 & b6 & b7 & b8 & b9 & b10 & b11 & E).
    rewrite E.
    pose proof (unpackResponseHeader_bytes b0 b1 b2 b3 b4 b5 b6 b7 b8 b9 b10
                  b11 [] (skipn 12 (elems message ++ spare message))) as Hb.
    cbn [app] in Hb. rewrite Hb. eexists. split; [reflexivity|].
    split.
    + eapply unpackResponseHeader_range.
      apply (unpackResponseHeader_bytes b0 b1 b2 b3 b4 b5 b6 b7 b8 b9 b10 b11
               [] []).
    + rewrite packHeader_bytes. cbn [id flags numQuestions numAnswers
        numAuthorityRR numAdditionalRR].
      rewrite !uint16ToByteSlice_bytes. reflexivity.
Qed.

Lemma unpackResponseHeader_capacity_witness :
  cap (received [x00; x16; x81]) >= 12
  /\ exists h, unpackResponseHeader (received [x00; x16; x81]) = Returned h
               /\ header_in_range h
               /\ packHeader h
                  = [x00; x16; x81; x00; x00; x00; x00; x00; x00; x00; x00;
                     x00].
Proof.
  assert (H : 12 <= cap (received [x00; x16; x81])) by (vm_compute; discriminate).
  split; [lia|].
  exact (proj2 (unpackResponseHeader_capacity (received [x00; x16; x81])) H).
Defined.

(** ** The response check on decoded headers *)

(** X2: on a decoded header the response check passes exactly when the QR
    bit is set or the flags are 32767, the one value with a clear QR bit
    that the threshold lets through. *)
Theorem checkResponse_threshold (message : slice) (h : dnsHeader) :
  unpackResponseHeader message = Returned h ->
  (checkResponse h = None
   <-> Z.testbit (flags h) 15 = true \/ flags h = 32767)
  /\ Z.testbit 32767 15 = false.
Proof.
  intros Hd. apply unpackResponseHeader_range in Hd.
  destruct Hd as (_ & Hr & _). rewrite (testbit_15_uint16 _ Hr).
  split; [|reflexivity]. unfold checkResponse.
  destruct (Z.ltb_spec (flags h) 32767) as [Hlt|Hge];
    destruct (Z.leb_spec 32768 (flags h)) as [Hle|Hgt]; try lia;
    split; intros H; try discriminate; try reflexivity;
    try (destruct H as [H|H]; [discriminate|lia]);
    try (right; lia); try (left; reflexivity).
Qed.

Lemma checkResponse_threshold_witness :
  unpackResponseHeader (mkSlice (packHeader (mkHeader 22 32767 1 1 0 0)) [])
  = Returned (mkHeader 22 32767 1 1 0 0)
  /\ checkResponse (mkHeader 22 32767 1 1 0 0) = None.
Proof.
  assert (H : unpackResponseHeader
                (mkSlice (packHeader (mkHeader 22 32767 1 1 0 0)) [])
              = Returned (mkHeader 22 32767 1 1 0 0)) by reflexivity.
  split; [exact H|].
  apply (proj1 (checkResponse_threshold _ _ H)). right. reflexivity.
Defined.

(** ** The query id generator *)

(** X3: whenever the random source keeps the contract of [rand.Intn],
    a value in [[0, n)], [generateQueryID] fits in 16 bits but is never
    65535, the largest id. *)
Theorem generateQueryID_range (rand_Intn : Z -> Z) :
  (forall n, 0 < n -> 0 <= rand_Intn n < n) ->
  uint16_range (generateQueryID rand_Intn)
  /\ generateQueryID rand_Intn <> 65535.
Proof.
  intros H. unfold generateQueryID, uint16_range.
  specialize (H 65535 ltac:(lia)). lia.
Qed.

Lemma generateQueryID_range_witness :
  (forall n, 0 < n -> 0 <= (fun n => n - 1) n < n)
  /\ uint16_range (generateQueryID (fun n => n - 1))
  /\ generateQueryID (fun n => n - 1) <> 65535.
Proof.
  assert (H : forall n, 0 < n -> 0 <= (fun n => n - 1) n < n)
    by (intros n Hn; cbv beta; lia).
  exact (conj H (generateQueryID_range (fun n => n - 1) H)).
Defined.

(** ** Names inside longer buffers *)

(** The scan on a run of encoded labels that starts [base + n] bytes into
    the slice. *)
Lemma label_scan_encoded_at (s : slice) (base : Z) (post : list byte) :
  forall (sections : list string) (pre : list byte) (acc : list Z)
         (fuel : nat) (n : Z),
    Forall wire_label sections ->
    elems s = pre ++ flat_map encode_label sections ++ x00 :: post ->
    Z.of_nat (List.length pre) = base + n ->
    (List.length sections < fuel)%nat ->
    label_scan fuel s base
      (hd x00 (flat_map encode_label sections ++ x00 :: post)) n acc
    = Returned
        (n + Z.of_nat (List.length (flat_map encode_label sections)),
         acc ++ map (fun x => Z.of_nat (String.length x)) sections).
Proof.
  induction sections as [|x xs IH]; intros pre acc fuel n Hok He Hn Hf.
  - destruct fuel as [|fuel]; [simpl in Hf; lia|].
    cbn. now rewrite Z.add_0_r, app_nil_r.
  - destruct fuel as [|fuel]; [simpl in Hf; lia|].
    inversion Hok as [|? ? Hx Hxs]; subst.
    cbn [flat_map] in *. unfold encode_label at 1. cbn [app hd].
    cbn [label_scan]. rewrite byte_eqb_x00.
    unfold wire_label in Hx. rewrite label_length_byte by lia.
    replace (Z.of_nat (String.length x) =? 0) with false
      by (symmetry; apply Z.eqb_neq; lia).
    assert (He' : elems s
                  = (pre ++ encode_label x)
                      ++ flat_map encode_label xs ++ x00 :: post).
    { rewrite He. now rewrite <- !app_assoc. }
    assert (Hl : base + (n + Z.of_nat (String.length x) + 1)
                 = Z.of_nat (List.length (pre ++ encode_label x))).
    { rewrite length_app, length_encode_label. lia. }
    rewrite Hl. rewrite index_in_range.
    2:{ unfold len. rewrite He', !length_app. cbn [List.length]. lia. }
    rewrite Nat2Z.id. rewrite He' at 1. rewrite nth_app_hd. cbn [bind].
    rewrite (IH (pre ++ encode_label x) _ fuel
               (n + Z.of_nat (String.length x) + 1) Hxs He')
      by (simpl in Hf; lia).
    rewrite !length_app, <- app_assoc. cbn [map app].
    rewrite length_encode_label. f_equal. f_equal. lia.
Qed.

Lemma length_flat_sections (sections : list string) (post : list byte) :
  (List.length sections
   < S (List.length (flat_map encode_label sections ++ x00 :: post)))%nat.
Proof.
  pose proof (length_sections_le sections). rewrite length_app. lia.
Qed.

(** [domainLength] on a run of labels and its terminator. *)
Lemma domainLength_labels (sections : list string) (post behind : list byte) :
  Forall wire_label sections ->
  domainLength
    (mkSlice (flat_map encode_label sections ++ x00 :: post) behind)
  = Returned
      (Z.of_nat (List.length (flat_map encode_label sections)) + 1).
Proof.
  intros Hok.
  set (s := mkSlice (flat_map encode_label sections ++ x00 :: post) behind).
  assert (He : elems s = [] ++ flat_map encode_label sections ++ x00 :: post)
    by reflexivity.
  unfold domainLength. rewrite index_in_range.
  2:{ unfold len. rewrite He. cbn [app]. rewrite length_app.
      cbn [List.length]. lia. }
  cbn [bind]. change (Z.to_nat 0) with (List.length (@nil byte)).
  rewrite He at 1. rewrite nth_app_hd.
  rewrite (label_scan_encoded_at s 0 post sections [] [] _ 0 Hok He)
    by (try reflexivity; unfold scan_fuel; rewrite He; cbn [app];
        apply length_flat_sections).
  reflexivity.
Qed.

(** [decodeHost] on a run of labels and its terminator. *)
Lemma decodeHost_labels (sections : list string) (post behind : list byte) :
  Forall wire_label sections ->
  decodeHost (mkSlice (flat_map encode_label sections ++ x00 :: post) behind)
  = Returned (strings_Join sections).
Proof.
  intros Hok.
  set (s := mkSlice (flat_map encode_label sections ++ x00 :: post) behind).
  assert (He : elems s = [] ++ flat_map encode_label sections ++ x00 :: post)
    by reflexivity.
  unfold decodeHost. rewrite index_in_range.
  2:{ unfold len. rewrite He. cbn [app]. rewrite length_app.
      cbn [List.length]. lia. }
  cbn [bind]. change (Z.to_nat 0) with (List.length (@nil byte)).
  rewrite He at 1. rewrite nth_app_hd.
  rewrite (label_scan_encoded_at s 0 post sections [] [] _ 0 Hok He)
    by (try reflexivity; unfold scan_fuel; rewrite He; cbn [app];
        apply length_flat_sections).
  cbn [bind snd app].
  change 1 with (Z.of_nat (List.length (@nil byte)) + 1).
  rewrite (decodeHost_parts_encoded s sections [] (x00 :: post) [] He).
  reflexivity.
Qed.

Lemma encodeHost_app (host : string) (rest : list byte) :
  encodeHost host ++ rest
  = flat_map encode_label (strings_Split host) ++ x00 :: rest.
Proof. rewrite encodeHost_flat_map, <- app_assoc. reflexivity. Qed.

Lemma length_encoded_sections (host : string) :
  List.length (flat_map encode_label (strings_Split host))
  = S (String.length host).
Proof.
  rewrite length_flat_map_encode_label. apply strings_Split_total_length.
Qed.

(** X4: on a buffer that starts with the encoding of a name whose labels
    have 1 to 255 bytes, [domainLength] returns the size of that encoding,
    [len(host) + 2], whatever follows it. *)
Theorem domainLength_encodeHost (host : string) (rest behind : list byte) :
  Forall wire_label (strings_Split host) ->
  domainLength (mkSlice (encodeHost host ++ rest) behind)
  = Returned (Z.of_nat (List.length (encodeHost host)))
  /\ List.length (encodeHost host) = (String.length host + 2)%nat.
Proof.
  intros Hok. rewrite encodeHost_app, domainLength_labels by exact Hok.
  rewrite encodeHost_flat_map, length_app, length_encoded_sections.
  cbn [List.length]. split; [f_equal; lia|lia].
Qed.

Lemma domainLength_encodeHost_witness :
  Forall wire_label (strings_Split "a.bc")
  /\ domainLength (mkSlice (encodeHost "a.bc" ++ [x00; x01]) [])
     = Returned (Z.of_nat (List.length (encodeHost "a.bc"))).
Proof.
  assert (H : Forall wire_label (strings_Split "a.bc"))
    by (cbn; repeat (constructor; [unfold wire_label; cbn; lia|]);
        constructor).
  split; [exact H|].
  exact (proj1 (domainLength_encodeHost "a.bc" [x00; x01] [] H)).
Defined.

(** X5: [decodeHost] reads a name up to its terminator and nothing behind
    it: on a buffer that starts with the encoding of a name whose labels
    have 1 to 255 bytes it returns the name, whatever follows. *)
Theorem decodeHost_ignores_trailing_bytes (host : string)
    (rest behind : list byte) :
  Forall wire_label (strings_Split host) ->
  decodeHost (mkSlice (encodeHost host ++ rest) behind) = Returned host.
Proof.
  intros Hok. rewrite encodeHost_app, decodeHost_labels by exact Hok.
  now rewrite strings_Join_Split.
Qed.

Lemma decodeHost_ignores_trailing_bytes_witness :
  Forall wire_label (strings_Split "a.bc")
  /\ decodeHost (mkSlice (encodeHost "a.bc" ++ [x05; x06]) [x07])
     = Returned "a.bc"%string.
Proof.
  assert (H : Forall wire_label (strings_Split "a.bc"))
    by (cbn; repeat (constructor; [unfold wire_label; cbn; lia|]);
        constructor).
  split; [exact H|].
  exact (decodeHost_ignores_trailing_bytes "a.bc" [x05; x06] [x07] H).
Defined.

Lemma flat_map_encode_label_app (l1 l2 : list string) :
  flat_map encode_label (l1 ++ l2)
  = flat_map encode_label l1 ++ flat_map encode_label l2.
Proof. apply flat_map_app. Qed.

(** X6: a name with an empty label does not survive the round trip.  When
    the labels before the first empty one have 1 to 255 bytes, decoding the
    encoding of the name returns those labels only: the empty label is
    written as a 0 byte and read as the terminator. *)
Theorem decodeHost_stops_at_empty_label (host : string)
    (before after : list string) (behind : list byte) :
  strings_Split host = before ++ EmptyString :: after ->
  Forall wire_label before ->
  decodeHost (mkSlice (encodeHost host) behind)
  = Returned (strings_Join before).
Proof.
  intros Hs Hok. rewrite encodeHost_flat_map, Hs, flat_map_encode_label_app.
  cbn [flat_map]. change (encode_label EmptyString) with [x00].
  rewrite <- !app_assoc. cbn [app].
  now apply decodeHost_labels.
Qed.

Lemma decodeHost_stops_at_empty_label_witness :
  strings_Split "a..b" = ["a"%string] ++ EmptyString :: ["b"%string]
  /\ Forall wire_label ["a"%string]
  /\ decodeHost (mkSlice (encodeHost "a..b") []) = Returned "a"%string.
Proof.
  assert (H1 : strings_Split "a..b"
               = ["a"%string] ++ EmptyString :: ["b"%string]) by reflexivity.
  assert (H2 : Forall wire_label ["a"%string])
    by (constructor; [unfold wire_label; cbn; lia|constructor]).
  split; [exact H1|]. split; [exact H2|].
  exact (decodeHost_stops_at_empty_label "a..b" ["a"%string] ["b"%string]
           [] H1 H2).
Defined.

(** X7: [encodeHost] is injective on names whose labels have 1 to 255
    bytes: two such names with the same encoding are the same name. *)
Theorem encodeHost_injective (host1 host2 : string) :
  Forall wire_label (strings_Split host1) ->
  Forall wire_label (strings_Split host2) ->
  encodeHost host1 = encodeHost host2 -> host1 = host2.
Proof.
  intros H1 H2 He.
  pose proof (decode_encoded_labels host1 [] H1) as D1.
  pose proof (decode_encoded_labels host2 [] H2) as D2.
  rewrite He in D1. rewrite D1 in D2. now injection D2.
Qed.

Lemma encodeHost_injective_witness :
  Forall wire_label (strings_Split "a.bc")
  /\ encodeHost "a.bc" = encodeHost "a.bc"
  /\ "a.bc"%string = "a.bc"%string.
Proof.
  assert (H : Forall wire_label (strings_Split "a.bc"))
    by (cbn; repeat (constructor; [unfold wire_label; cbn; lia|]);
        constructor).
  split; [exact H|]. split; [reflexivity|].
  exact (encodeHost_injective "a.bc" "a.bc" H H eq_refl).
Defined.

(** ** Skipping the question *)

Lemma extractAnswers_initial_extractAuthorityAnswer_aux (message : slice) :
  extractAnswers_initial message = extractAuthorityAnswer message.
Proof.
  unfold extractAnswers_initial, extractAuthorityAnswer, domainLength.
  destruct (index message 0) as [shift| | |]; cbn [bind]; try reflexivity.
  destruct (label_scan (scan_fuel message) message 0 shift 0 [])
    as [r| | |]; cbn [bind]; try reflexivity.
  now replace (fst r + 1 + 4) with (fst r + 5) by lia.
Qed.

(** X8: the question skip that [extractAnswers] spells out is the one of
    [extractAuthorityAnswer]: on every message both stop on the same byte,
    five bytes after the scan of the name, or fail alike. *)
Theorem extractAnswers_question_skip (message : slice)
    (responseAnswers : Z) :
  extractAnswers_initial message = extractAuthorityAnswer message
  /\ (forall p, extractAuthorityAnswer message = Panic p ->
                extractAnswers message responseAnswers = Panic p).
Proof.
  split; [apply extractAnswers_initial_extractAuthorityAnswer_aux|].
  intros p Hp. unfold extractAnswers.
  now rewrite extractAnswers_initial_extractAuthorityAnswer_aux, Hp.
Qed.

Lemma reslice_from_prefix (front back behind : list byte) :
  reslice_from (mkSlice (front ++ back) behind)
               (Z.of_nat (List.length front))
  = Returned (mkSlice back behind).
Proof.
  unfold reslice_from.
  rewrite reslice_within by (unfold len; cbn [elems]; rewrite length_app; lia).
  cbn [elems spare]. rewrite Nat2Z.id.
  rewrite skipn_length_app by reflexivity.
  rewrite firstn_all2
    by (unfold len; cbn [elems]; rewrite length_app; lia).
  rewrite skipn_all2
    by (unfold len; cbn [elems]; rewrite Nat2Z.id; lia).
  reflexivity.
Qed.

Lemma question_skipped (host : string)
    (t1 t0 c1 c0 : byte) (records behind : list byte) :
  Forall wire_label (strings_Split host) ->
  extractAuthorityAnswer
    (mkSlice (encodeHost host ++ [t1; t0; c1; c0] ++ records) behind)
  = Returned (mkSlice records behind)
  /\ extractAnswers_initial
       (mkSlice (encodeHost host ++ [t1; t0; c1; c0] ++ records) behind)
     = Returned (mkSlice records behind).
Proof.
  intros Hok.
  assert (H : extractAuthorityAnswer
                (mkSlice (encodeHost host ++ [t1; t0; c1; c0] ++ records)
                         behind)
              = Returned (mkSlice records behind)).
  { unfold extractAuthorityAnswer.
    rewrite encodeHost_app, domainLength_labels by exact Hok. cbn [bind].
    rewrite <- encodeHost_app.
    replace (encodeHost host ++ [t1; t0; c1; c0] ++ records)
      with ((encodeHost host ++ [t1; t0; c1; c0]) ++ records)
      by (now rewrite <- app_assoc).
    replace (Z.of_nat (List.length
                         (flat_map encode_label (strings_Split host)))
             + 1 + 4)
      with (Z.of_nat (List.length (encodeHost host ++ [t1; t0; c1; c0]))).
    - apply reslice_from_prefix.
    - rewrite encodeHost_flat_map, !length_app. cbn [List.length]. lia. }
  split; [exact H|].
  now rewrite extractAnswers_initial_extractAuthorityAnswer_aux.
Qed.

(** X9: on a buffer that starts with a question (the encoding of a name
    whose labels have 1 to 255 bytes, then two bytes of type and two of
    class) [extractAuthorityAnswer] returns exactly the bytes behind the
    question, and so does the first step of [extractAnswers]. *)
Theorem extractAuthorityAnswer_skips_question (host : string)
    (t1 t0 c1 c0 : byte) (records behind : list byte) :
  Forall wire_label (strings_Split host) ->
  extractAuthorityAnswer
    (mkSlice (encodeHost host ++ [t1; t0; c1; c0] ++ records) behind)
  = Returned (mkSlice records behind)
  /\ extractAnswers_initial
       (mkSlice (encodeHost host ++ [t1; t0; c1; c0] ++ records) behind)
     = Returned (mkSlice records behind).
Proof. apply question_skipped. Qed.

Lemma extractAnswers_question_skip_witness :
  extractAuthorityAnswer (mkSlice [] [x01]) = Panic IndexOutOfRange
  /\ extractAnswers (mkSlice [] [x01]) 1 = Panic IndexOutOfRange.
Proof.
  assert (H : extractAuthorityAnswer (mkSlice [] [x01])
              = Panic IndexOutOfRange) by reflexivity.
  split; [exact H|].
  exact (proj2 (extractAnswers_question_skip (mkSlice [] [x01]) 1) _ H).
Defined.

Lemma extractAuthorityAnswer_skips_question_witness :
  Forall wire_label (strings_Split "a.bc")
  /\ extractAuthorityAnswer
       (mkSlice (encodeHost "a.bc" ++ [x00; x01; x00; x01] ++ [xc0; x0c])
                [x00])
     = Returned (mkSlice [xc0; x0c] [x00]).
Proof.
  assert (H : Forall wire_label (strings_Split "a.bc"))
    by (cbn; repeat (constructor; [unfold wire_label; cbn; lia|]);
        constructor).
  split; [exact H|].
  exact (proj1 (extractAuthorityAnswer_skips_question "a.bc" x00 x01 x00 x01
                  [xc0; x0c] [x00] H)).
Defined.

(** ** What a finished scan guarantees *)

Lemma byte_eqb_true (b : byte) : Byte.eqb b x00 = true -> b = x00.
Proof. apply Byte.byte_dec_bl. Qed.

Lemma labels_span_app (l1 l2 : list Z) :
  labels_span (l1 ++ l2) = labels_span l1 + labels_span l2.
Proof.
  induction l1 as [|v l1 IH]; cbn [app labels_span fold_right];
    [reflexivity|].
  fold (labels_span (l1 ++ l2)). fold (labels_span l1). lia.
Qed.

(** A scan that returns has stopped on a zero byte inside the slice, after
    labels of 1 to 255 bytes that fill the bytes it went over. *)
Lemma label_scan_returned (s : slice) (base : Z) :
  forall (fuel : nat) (shift : byte) (n : Z) (acc : list Z)
         (n' : Z) (acc' : list Z),
    index s (base + n) = Returned shift ->
    label_scan fuel s base shift n acc = Returned (n', acc') ->
    index s (base + n') = Returned x00
    /\ exists valueShifts,
         acc' = acc ++ valueShifts
         /\ Forall (fun v => 1 <= v <= 255) valueShifts
         /\ n' = n + labels_span valueShifts.
Proof.
  induction fuel as [|fuel IH]; intros shift n acc n' acc' Hi Hr;
    [discriminate|].
  cbn [label_scan] in Hr. destruct (Byte.eqb shift x00) eqn:E.
  - apply byte_eqb_true in E. subst shift. injection Hr as <- <-.
    split; [exact Hi|]. exists []. rewrite app_nil_r. cbn.
    repeat split; [constructor|lia].
  - destruct (index s (base + (n + Z_of_byte shift + 1))) as [shift'| | |]
      eqn:Ei; cbn [bind] in Hr; try discriminate.
    destruct (IH _ _ _ _ _ Ei Hr) as (Hz & vs & Ha & Hv & Hn).
    split; [exact Hz|]. exists (Z_of_byte shift :: vs).
    rewrite <- app_assoc in Ha. cbn [app] in Ha.
    split; [exact Ha|]. split.
    + constructor; [|exact Hv]. pose proof (Z_of_byte_range shift).
      rewrite byte_eqb_x00 in E. apply Z.eqb_neq in E. lia.
    + cbn [labels_span fold_right]. fold (labels_span vs). lia.
Qed.

(** X10: when [domainLength] returns [n], the name it measured lies inside
    the slice and ends on a zero byte: [1 <= n <= len] and byte [n - 1] is
    0. *)
Theorem domainLength_stops_on_terminator (message : slice) (n : Z) :
  domainLength message = Returned n ->
  1 <= n <= len message /\ index message (n - 1) = Returned x00.
Proof.
  unfold domainLength. intros H.
  destruct (index message 0) as [shift| | |] eqn:Ei; cbn [bind] in H;
    try discriminate.
  destruct (label_scan (scan_fuel message) message 0 shift 0 [])
    as [[n' acc']| | |] eqn:Es; cbn [bind fst] in H; try discriminate.
  injection H as <-.
  destruct (label_scan_returned message 0 _ _ _ _ _ _ Ei Es)
    as (Hz & vs & _ & Hv & Hn).
  cbn [Z.add] in Hz.
  pose proof (index_Returned_range _ _ _ Hz) as Hr.
  replace (n' + 1 - 1) with n' by lia. split; [lia|exact Hz].
Qed.

Lemma domainLength_stops_on_terminator_witness :
  domainLength (mkSlice [x01; x61; x00; x07] []) = Returned 3
  /\ 1 <= 3 <= len (mkSlice [x01; x61; x00; x07] [])
  /\ index (mkSlice [x01; x61; x00; x07] []) (3 - 1) = Returned x00.
Proof.
  assert (H : domainLength (mkSlice [x01; x61; x00; x07] []) = Returned 3)
    by reflexivity.
  split; [exact H|].
  exact (domainLength_stops_on_terminator _ 3 H).
Defined.

(** The second loop of [decodeHost] cannot fail on lengths that a finished
    scan recorded. *)
Lemma decodeHost_parts_returns (s : slice) :
  forall (valueShifts : list Z) (sliceStart : Z) (domainParts : list string),
    Forall (fun v => 1 <= v <= 255) valueShifts ->
    1 <= sliceStart ->
    sliceStart - 1 + labels_span valueShifts <= len s ->
    exists parts,
      decodeHost_parts s valueShifts sliceStart domainParts = Returned parts
      /\ List.length parts
         = (List.length domainParts + List.length valueShifts)%nat.
Proof.
  induction valueShifts as [|v vs IH];
    intros sliceStart domainParts Hv Hs Hl.
  - exists domainParts. cbn. split; [reflexivity|lia].
  - inversion Hv as [|? ? Hv1 Hvs]; subst.
    cbn [labels_span fold_right] in Hl. fold (labels_span vs) in Hl.
    assert (Hge : 0 <= labels_span vs).
    { clear -Hvs. induction Hvs; cbn [labels_span fold_right]; [lia|].
      fold (labels_span l). lia. }
    cbn [decodeHost_parts]. rewrite reslice_within by lia. cbn [bind].
    destruct (IH (sliceStart + v + 1)
                 (domainParts
                    ++ [string_of_list_byte
                          (elems
                             (mkSlice
                                (firstn (Z.to_nat (v + sliceStart - sliceStart))
                                   (skipn (Z.to_nat sliceStart) (elems s)))
                                (skipn (Z.to_nat (v + sliceStart)) (elems s)
                                   ++ spare s)))])
                 Hvs ltac:(lia) ltac:(lia)) as (parts & Hp & Hlen).
    exists parts. split; [exact Hp|].
    rewrite Hlen, length_app. cbn [List.length]. lia.
Qed.

(** X11: [decodeHost] and [domainLength] succeed and fail together: on
    every slice one returns exactly when the other does, and they panic
    with the same runtime error. *)
Theorem decodeHost_returns_iff_domainLength (encodedHost : slice) :
  ((exists n, domainLength encodedHost = Returned n)
   <-> (exists host, decodeHost encodedHost = Returned host))
  /\ (forall p, domainLength encodedHost = Panic p
                <-> decodeHost encodedHost = Panic p).
Proof.
  unfold domainLength, decodeHost.
  destruct (index encodedHost 0) as [shift|p0|m0|] eqn:Ei; cbn [bind].
  2-4: split; [split; intros [? H]; discriminate
               |intros p; split; intros H; try discriminate;
                injection H as <-; reflexivity].
  destruct (label_scan (scan_fuel encodedHost) encodedHost 0 shift 0 [])
    as [[n' acc']|p1|m1|] eqn:Es; cbn [bind fst snd].
  2-4: split; [split; intros [? H]; discriminate
               |intros p; split; intros H; try discriminate;
                injection H as <-; reflexivity].
  destruct (label_scan_returned encodedHost 0 _ _ _ _ _ _ Ei Es)
    as (Hz & vs & Ha & Hv & Hn).
  cbn [app Z.add] in Ha, Hz, Hn. subst acc'.
  pose proof (index_Returned_range _ _ _ Hz) as Hr.
  destruct (decodeHost_parts_returns encodedHost vs 1 [] Hv ltac:(lia)
              ltac:(lia)) as (parts & Hp & _).
  rewrite Hp. cbn [bind]. split.
  - split; intros _; eexists; reflexivity.
  - intros p; split; intros H; discriminate.
Qed.

Lemma decodeHost_returns_iff_domainLength_witness :
  (exists n, domainLength (mkSlice [x01; x61; x00; x07] []) = Returned n)
  /\ (exists host,
        decodeHost (mkSlice [x01; x61; x00; x07] []) = Returned host).
Proof.
  assert (H : exists n,
             domainLength (mkSlice [x01; x61; x00; x07] []) = Returned n)
    by (exists 3; reflexivity).
  split; [exact H|].
  exact (proj1 (proj1 (decodeHost_returns_iff_domainLength
                         (mkSlice [x01; x61; x00; x07] []))) H).
Defined.

(** ** Empty input and missing records *)

(** X12: on a slice of length 0 every function that starts with the scan
    of a name panics on its first index, whatever the capacity behind the
    slice; [extractAnswers] does so before it divides by the answer
    count. *)
Theorem scans_panic_on_empty_slice (message : slice)
    (responseAnswers : Z) :
  len message = 0 ->
  domainLength message = Panic IndexOutOfRange
  /\ decodeHost message = Panic IndexOutOfRange
  /\ extractAuthorityAnswer message = Panic IndexOutOfRange
  /\ extractAnswers message responseAnswers = Panic IndexOutOfRange.
Proof.
  intros H.
  assert (Hi : index message 0 = Panic IndexOutOfRange)
    by (apply index_out_of_range; lia).
  unfold extractAnswers, extractAnswers_initial, extractAuthorityAnswer,
    domainLength, decodeHost.
  rewrite Hi. repeat split.
Qed.

Lemma scans_panic_on_empty_slice_witness :
  len (mkSlice [] [x01; x61; x00]) = 0
  /\ domainLength (mkSlice [] [x01; x61; x00]) = Panic IndexOutOfRange.
Proof.
  assert (H : len (mkSlice [] [x01; x61; x00]) = 0) by reflexivity.
  split; [exact H|].
  exact (proj1 (scans_panic_on_empty_slice (mkSlice [] [x01; x61; x00]) 0 H)).
Defined.

(** X13: a reply that passes the response check and declares neither
    answers nor authority records never gets decoded: [main] takes the
    answer path and panics, at the latest on the division by the answer
    count. *)
Theorem main_decode_no_records (response : slice) (h : dnsHeader) :
  unpackResponseHeader response = Returned h ->
  checkResponse h = None ->
  numAnswers h = 0 -> numAuthorityRR h = 0 ->
  exists p, main_decode response = Panic p.
Proof.
  intros Hh Hc Ha Hn. unfold main_decode. rewrite Hh. cbn [bind].
  pose proof (reslice_returns_or_panics response 12 (len response)) as Hr.
  unfold reslice_from.
  destruct (reslice response 12 (len response)) as [r|p|m|]; cbn [bind];
    try contradiction; [|eauto].
  rewrite Hc, Ha, Hn. cbn [Z.eqb Z.ltb Z.compare andb].
  unfold extractAnswers.
  pose proof (extractAnswers_initial_returns_or_panics r) as Hi.
  destruct (extractAnswers_initial r) as [ia|p|m|]; cbn [bind Z.eqb];
    try contradiction; eauto.
Qed.

Lemma main_decode_no_records_witness :
  unpackResponseHeader
    (received (bytes_of (sample_header 0 ++ sample_question)))
  = Returned (mkHeader 22 33152 1 0 0 0)
  /\ checkResponse (mkHeader 22 33152 1 0 0 0) = None
  /\ exists p,
       main_decode (received (bytes_of (sample_header 0 ++ sample_question)))
       = Panic p.
Proof.
  assert (H : unpackResponseHeader
                (received (bytes_of (sample_header 0 ++ sample_question)))
              = Returned (mkHeader 22 33152 1 0 0 0))
    by (vm_compute; reflexivity).
  split; [exact H|]. split; [reflexivity|].
  exact (main_decode_no_records _ _ H eq_refl eq_refl eq_refl).
Defined.

(** ** How many windows [extractAnswers] cuts *)

Lemma extractAnswers_windows (message initialAnswer : slice)
    (responseAnswers : Z) :
  extractAnswers_initial message = Returned initialAnswer ->
  0 < responseAnswers ->
  extractAnswers message responseAnswers
  = Returned
      (map (even_chunk initialAnswer
              (Z.to_nat (len initialAnswer / responseAnswers)))
           (seq 0 (List.length (elems initialAnswer)
                   / Z.to_nat (len initialAnswer / responseAnswers)))).
Proof.
  intros Hi Hn. unfold extractAnswers. rewrite Hi. cbn [bind].
  replace (responseAnswers =? 0) with false
    by (symmetry; apply Z.eqb_neq; lia).
  pose proof (len_nonneg initialAnswer) as Hl.
  rewrite Z.quot_div_nonneg by lia.
  pose proof (Z.div_pos (len initialAnswer) responseAnswers Hl Hn) as Hq.
  set (size := Z.to_nat (len initialAnswer / responseAnswers)).
  destruct (Z.ltb_spec (len initialAnswer / responseAnswers) 1) as [H0|H1].
  - rewrite extractAnswers_range_none by lia.
    replace size with 0%nat by (unfold size; lia). reflexivity.
  - replace (len initialAnswer / responseAnswers) with (Z.of_nat size)
      by (unfold size; lia).
    unfold range_indices.
    change 0 with (Z.of_nat 0) at 1. change 0 with (Z.of_nat (0 * size)).
    rewrite (extractAnswers_range_chunks initialAnswer size)
      by (unfold size; lia).
    reflexivity.
Qed.



(** ** Records of one size *)

Lemma seq_shift_map (start n : nat) :
  seq (S start) n = map S (seq start n).
Proof. symmetry. apply seq_shift. Qed.

(** Cutting a concatenation of equal blocks gives the blocks back. *)
Lemma concat_windows {A : Type} (size : nat) (blocks : list (list A)) :
  Forall (fun block => List.length block = size) blocks ->
  map (fun j => firstn size (skipn (j * size) (List.concat blocks)))
      (seq 0 (List.length blocks))
  = blocks.
Proof.
  induction 1 as [|block blocks Hb Hbs IH]; [reflexivity|].
  cbn [List.length seq map List.concat]. f_equal.
  - cbn [Nat.mul skipn]. now apply firstn_length_app.
  - rewrite seq_shift_map, map_map. rewrite <- IH at 2.
    apply map_ext. intros j. cbn [Nat.mul].
    rewrite skipn_app.
    replace (size + j * size - List.length block)%nat with (j * size)%nat
      by lia.
    rewrite skipn_all2 by lia. reflexivity.
Qed.

Lemma length_concat_blocks {A : Type} (size : nat) (blocks : list (list A)) :
  Forall (fun block => List.length block = size) blocks ->
  List.length (List.concat blocks) = (List.length blocks * size)%nat.
Proof.
  induction 1 as [|block blocks Hb Hbs IH]; [reflexivity|].
  cbn [List.concat List.length Nat.mul]. rewrite length_app. lia.
Qed.

Lemma extractAnswers_blocks (message initialAnswer : slice) (size : nat)
    (records : list (list byte)) :
  extractAnswers_initial message = Returned initialAnswer ->
  elems initialAnswer = List.concat records ->
  (1 <= size)%nat -> records <> [] ->
  Forall (fun record => List.length record = size) records ->
  extractAnswers message (Z.of_nat (List.length records))
  = Returned (map (even_chunk initialAnswer size)
                  (seq 0 (List.length records)))
  /\ map elems (map (even_chunk initialAnswer size)
                    (seq 0 (List.length records)))
     = records.
Proof.
  intros Hi He Hs Hne Hr.
  assert (Hn : (1 <= List.length records)%nat)
    by (destruct records; [contradiction|cbn; lia]).
  pose proof (length_concat_blocks size records Hr) as Hl.
  assert (HL : len initialAnswer
               = Z.of_nat (List.length records) * Z.of_nat size)
    by (unfold len; rewrite He, Hl; lia).
  split.
  - rewrite (extractAnswers_windows _ _ _ Hi) by lia.
    rewrite HL, Z.mul_comm, Z.div_mul by lia. rewrite Nat2Z.id.
    rewrite He, Hl, Nat.div_mul by lia. reflexivity.
  - rewrite map_map. unfold even_chunk. cbn [elems]. rewrite He.
    now apply concat_windows.
Qed.

(** X15: when the bytes behind the question are exactly [n] records of one
    common size, [extractAnswers] called with [n] returns [n] answers whose
    bytes are those records, in order. *)
Theorem extractAnswers_uniform_records (message initialAnswer : slice)
    (size : nat) (records : list (list byte)) :
  extractAnswers_initial message = Returned initialAnswer ->
  elems initialAnswer = List.concat records ->
  (1 <= size)%nat -> records <> [] ->
  Forall (fun record => List.length record = size) records ->
  exists answers,
    extractAnswers message (Z.of_nat (List.length records))
    = Returned answers
    /\ map elems answers = records.
Proof.
  intros Hi He Hs Hne Hr.
  destruct (extractAnswers_blocks _ _ _ _ Hi He Hs Hne Hr) as [H1 H2].
  eexists. split; [exact H1|exact H2].
Qed.

Lemma extractAnswers_uniform_records_witness :
  extractAnswers_initial
    (mkSlice (bytes_of [0; 0; 1; 0; 1; 7; 8; 9; 10]) [])
  = Returned (mkSlice (bytes_of [7; 8; 9; 10]) [])
  /\ Forall (fun record => List.length record = 2%nat)
            [bytes_of [7; 8]; bytes_of [9; 10]]
  /\ exists answers,
       extractAnswers (mkSlice (bytes_of [0; 0; 1; 0; 1; 7; 8; 9; 10]) [])
         (Z.of_nat (List.length [bytes_of [7; 8]; bytes_of [9; 10]]))
       = Returned answers
       /\ map elems answers = [bytes_of [7; 8]; bytes_of [9; 10]].
Proof.
  assert (H : extractAnswers_initial
                (mkSlice (bytes_of [0; 0; 1; 0; 1; 7; 8; 9; 10]) [])
              = Returned (mkSlice (bytes_of [7; 8; 9; 10]) []))
    by reflexivity.
  assert (HF : Forall (fun record => List.length record = 2%nat)
                      [bytes_of [7; 8]; bytes_of [9; 10]])
    by (repeat constructor).
  split; [exact H|]. split; [exact HF|].
  exact (extractAnswers_uniform_records _ _ 2
           [bytes_of [7; 8]; bytes_of [9; 10]] H eq_refl ltac:(lia)
           ltac:(discriminate) HF).
Defined.

(** ** Unpacking several answers *)

Lemma unpackAnswers_from_acc (message : slice) :
  forall (answers : list slice) (acc : list resourceRecordIPv4),
    unpackAnswers_from message answers acc
    = (records <- unpackAnswers_from message answers [] ;;
       Returned (acc ++ records)).
Proof.
  induction answers as [|a rest IH]; intros acc; cbn [unpackAnswers_from].
  - cbn [bind]. now rewrite app_nil_r.
  - destruct (unpackAnswers_one message a) as [[r|]| | |]; cbn [bind];
      try reflexivity.
    + rewrite (IH (acc ++ [r])), (IH ([] ++ [r])).
      destruct (unpackAnswers_from message rest []); cbn [bind];
        try reflexivity.
      now rewrite <- app_assoc.
    + apply IH.
Qed.

Lemma unpackAnswers_cons (message answer : slice) (rest : list slice) :
  unpackAnswers message (answer :: rest)
  = (r <- unpackAnswers_one message answer ;;
     records <- unpackAnswers message rest ;;
     Returned (match r with Some record => [record] | None => [] end
               ++ records)).
Proof.
  unfold unpackAnswers. cbn [unpackAnswers_from].
  destruct (unpackAnswers_one message answer) as [[r|]| | |]; cbn [bind];
    try reflexivity.
  - now rewrite unpackAnswers_from_acc.
  - destruct (unpackAnswers_from message rest []); reflexivity.
Qed.

(** X16: [unpackAnswers] decodes the answers one by one and in order: the
    records of a concatenation are the records of the first part followed
    by those of the second, and a panic in either part is the outcome of
    the whole. *)
Theorem unpackAnswers_app (message : slice) (answers1 answers2 : list slice) :
  unpackAnswers message (answers1 ++ answers2)
  = (records1 <- unpackAnswers message answers1 ;;
     records2 <- unpackAnswers message answers2 ;;
     Returned (records1 ++ records2)).
Proof.
  induction answers1 as [|a rest IH].
  - cbn [app]. unfold unpackAnswers at 2. cbn [unpackAnswers_from bind].
    destruct (unpackAnswers message answers2); reflexivity.
  - cbn [app]. rewrite !unpackAnswers_cons, IH.
    destruct (unpackAnswers_one message a) as [r| | |]; cbn [bind];
      try reflexivity.
    destruct (unpackAnswers message rest) as [rs1| | |]; cbn [bind];
      try reflexivity.
    destruct (unpackAnswers message answers2) as [rs2| | |]; cbn [bind];
      try reflexivity.
    now rewrite app_assoc.
Qed.

(** X17: a record whose first two bytes are not above 49152, that is a
    name written out in labels or a pointer to offset 0, is passed over in
    silence: [unpackAnswers] returns no record for it and
    [unpackAuthorityAnswer] returns the empty record. *)
Theorem unpack_skips_uncompressed (message : slice) (answers : list slice) :
  Forall (fun answer => exists pointer,
            name_pointer answer = Returned pointer /\ pointer <= 49152)
         answers ->
  unpackAnswers message answers = Returned []
  /\ Forall (fun answer =>
               unpackAuthorityAnswer message answer
               = Returned (mkRRNS EmptyString 0 0 0 0 EmptyString))
            answers.
Proof.
  induction 1 as [|a rest (pointer & Hp & Hle) Hrest [IH1 IH2]].
  - split; [reflexivity|constructor].
  - assert (Hc : compressed a = Returned false).
    { unfold compressed. rewrite Hp. cbn [bind].
      now replace (49152 <? pointer) with false
        by (symmetry; apply Z.ltb_ge; lia). }
    split.
    + rewrite unpackAnswers_cons. unfold unpackAnswers_one.
      rewrite Hc, IH1. reflexivity.
    + constructor; [|exact IH2]. unfold unpackAuthorityAnswer.
      now rewrite Hc.
Qed.

Lemma unpack_skips_uncompressed_witness :
  Forall (fun answer => exists pointer,
            name_pointer answer = Returned pointer /\ pointer <= 49152)
         [mkSlice (bytes_of [192; 0; 0; 1]) []]
  /\ unpackAnswers (mkSlice [] []) [mkSlice (bytes_of [192; 0; 0; 1]) []]
     = Returned [].
Proof.
  assert (H : Forall (fun answer => exists pointer,
                        name_pointer answer = Returned pointer
                        /\ pointer <= 49152)
                     [mkSlice (bytes_of [192; 0; 0; 1]) []]).
  { constructor; [|constructor]. exists 49152.
    split; [reflexivity|lia]. }
  split; [exact H|].
  exact (proj1 (unpack_skips_uncompressed (mkSlice [] []) _ H)).
Defined.

(** ** Whole replies *)

Lemma lor_shiftl_add (a b k : Z) :
  0 <= k -> 0 <= a < 2 ^ k -> 0 <= b ->
  Z.lor a (Z.shiftl b k) = a + b * 2 ^ k.
Proof.
  intros Hk Ha Hb. rewrite Z.shiftl_mul_pow2 by lia.
  assert (Hd : Z.land a (b * 2 ^ k) = 0).
  { apply Z.bits_inj'. intros n Hn. rewrite Z.land_spec, Z.bits_0.
    destruct (Z.ltb_spec n k).
    - rewrite Z.mul_pow2_bits_low by lia. apply andb_false_r.
    - destruct (Z.eq_dec a 0) as [->|Hne];
        [now rewrite Z.bits_0|].
      rewrite (Z.bits_above_log2 a); [reflexivity|lia|].
      apply Z.lt_le_trans with k; [apply Z.log2_lt_pow2; lia|lia]. }
  rewrite <- Z.lxor_lor, <- Z.add_nocarry_lxor by exact Hd. reflexivity.
Qed.

Lemma BigEndian_Uint32_four (b0 b1 b2 b3 : byte) (rest : list byte) :
  BigEndian_Uint32 (mkSlice [b0; b1; b2; b3] rest)
  = Returned (Z_of_byte b0 * 16777216 + Z_of_byte b1 * 65536
              + Z_of_byte b2 * 256 + Z_of_byte b3).
Proof.
  unfold BigEndian_Uint32.
  change (index (mkSlice [b0; b1; b2; b3] rest) 3) with (Returned b3).
  change (index (mkSlice [b0; b1; b2; b3] rest) 2) with (Returned b2).
  change (index (mkSlice [b0; b1; b2; b3] rest) 1) with (Returned b1).
  change (index (mkSlice [b0; b1; b2; b3] rest) 0) with (Returned b0).
  cbn [bind].
  pose proof (Z_of_byte_range b0). pose proof (Z_of_byte_range b1).
  pose proof (Z_of_byte_range b2). pose proof (Z_of_byte_range b3).
  rewrite (lor_shiftl_add (Z_of_byte b3) (Z_of_byte b2) 8)
    by (change (2 ^ 8) with 256; lia).
  rewrite (lor_shiftl_add _ (Z_of_byte b1) 16)
    by (change (2 ^ 8) with 256; change (2 ^ 16) with 65536; lia).
  rewrite (lor_shiftl_add _ (Z_of_byte b0) 24)
    by (change (2 ^ 8) with 256; change (2 ^ 16) with 65536;
        change (2 ^ 24) with 16777216; lia).
  f_equal. change (2 ^ 8) with 256. change (2 ^ 16) with 65536.
  change (2 ^ 24) with 16777216. lia.
Qed.

(** [s[lo:hi]] when the visible bytes are known around the window. *)
Lemma reslice_window (s : slice) (lo hi : Z) (pre mid post : list byte) :
  elems s = pre ++ mid ++ post ->
  lo = Z.of_nat (List.length pre) ->
  hi = lo + Z.of_nat (List.length mid) ->
  reslice s lo hi = Returned (mkSlice mid (post ++ spare s)).
Proof.
  intros He -> ->.
  rewrite reslice_within
    by (unfold len; rewrite ?He, ?length_app; lia).
  f_equal. f_equal.
  - rewrite He, Nat2Z.id, skipn_length_app by reflexivity.
    apply firstn_length_app. lia.
  - f_equal. rewrite He, app_assoc. apply skipn_length_app.
    rewrite length_app. lia.
Qed.

Lemma index_hd (s : slice) (b : byte) (rest : list byte) :
  elems s = b :: rest -> index s 0 = Returned b.
Proof.
  intros He. rewrite index_in_range by (unfold len; rewrite He; cbn; lia).
  now rewrite He.
Qed.

Lemma encodeHost_hd (host : string) (rest : list byte) :
  exists b tail, encodeHost host ++ rest = b :: tail
                 /\ b = hd x00 (flat_map encode_label (strings_Split host)
                                  ++ x00 :: rest).
Proof.
  rewrite encodeHost_app.
  destruct (flat_map encode_label (strings_Split host) ++ x00 :: rest)
    as [|b tail] eqn:E.
  - destruct (flat_map encode_label (strings_Split host)); discriminate.
  - exists b, tail. split; reflexivity.
Qed.

(** The name of a record that points at offset 12, where the question
    holds the encoding of [host]. *)
Lemma referenced_fqdn_question (hdr rest behind : list byte) (host : string)
    (answer : slice) :
  List.length hdr = 12%nat ->
  Forall wire_label (strings_Split host) ->
  name_pointer answer = Returned 49164 ->
  referenced_fqdn (mkSlice (hdr ++ encodeHost host ++ rest) behind) answer
  = Returned (mkSlice (encodeHost host) (rest ++ behind)).
Proof.
  intros Hh Hok Hp. unfold referenced_fqdn. rewrite Hp. cbn [bind].
  change (uint16_wrap (49164 - 49152)) with 12.
  replace 12 with (Z.of_nat (List.length hdr)) at 1 by lia.
  rewrite reslice_from_prefix. cbn [bind].
  destruct (encodeHost_hd host rest) as (b & tail & Eb & Hb).
  rewrite (index_hd _ b tail) by exact Eb. cbn [bind]. rewrite Hb.
  set (message := mkSlice (hdr ++ encodeHost host ++ rest) behind).
  assert (He : elems message
               = hdr ++ flat_map encode_label (strings_Split host)
                     ++ x00 :: rest).
  { unfold message. cbn [elems]. now rewrite encodeHost_app. }
  rewrite (label_scan_encoded_at message 12 rest (strings_Split host) hdr []
             _ 0 Hok He) by
    (try lia; unfold scan_fuel; rewrite He, length_app;
     pose proof (length_flat_sections (strings_Split host) rest); lia).
  cbn [bind fst].
  rewrite (reslice_window message _ _ hdr (encodeHost host) rest);
    [reflexivity|reflexivity|lia|].
  rewrite encodeHost_flat_map, length_app. cbn [List.length]. lia.
Qed.

Lemma name_pointer_c00c (tail behind : list byte) :
  name_pointer (mkSlice (xc0 :: x0c :: tail) behind) = Returned 49164.
Proof.
  unfold name_pointer.
  rewrite (reslice_window _ 0 2 [] [xc0; x0c] tail) by reflexivity.
  cbn [bind]. now rewrite BigEndian_Uint16_two.
Qed.

(** The envelope of a record, read field by field. *)
Lemma envelope_fields (answer : slice) (p1 p0 : byte) (e : envelope)
    (tail : list byte) :
  elems answer = [p1; p0] ++ envelope_bytes e ++ tail ->
  (b <- reslice answer 2 4 ;; BigEndian_Uint16 b)
  = Returned (envelope_type e)
  /\ (b <- reslice answer 4 6 ;; BigEndian_Uint16 b)
     = Returned (envelope_class e)
  /\ (b <- reslice answer 6 10 ;; BigEndian_Uint32 b)
     = Returned (envelope_ttl e).
Proof.
  intros He. destruct e as [t1 t0 c1 c0 l3 l2 l1 l0].
  unfold envelope_bytes in He. cbn [type1 type0 class1 class0 ttl3 ttl2 ttl1
    ttl0 app] in He.
  repeat split.
  - rewrite (reslice_window answer 2 4 [p1; p0] [t1; t0]
               ([c1; c0; l3; l2; l1; l0] ++ tail)) by (try reflexivity; exact He).
    cbn [bind]. now rewrite BigEndian_Uint16_two.
  - rewrite (reslice_window answer 4 6 [p1; p0; t1; t0] [c1; c0]
               ([l3; l2; l1; l0] ++ tail)) by (try reflexivity; exact He).
    cbn [bind]. now rewrite BigEndian_Uint16_two.
  - rewrite (reslice_window answer 6 10 [p1; p0; t1; t0; c1; c0]
               [l3; l2; l1; l0] tail) by (try reflexivity; exact He).
    cbn [bind]. now rewrite BigEndian_Uint32_four.
Qed.

Lemma length_envelope_bytes (e : envelope) :
  List.length (envelope_bytes e) = 8%nat.
Proof. reflexivity. Qed.

(** One well-formed A record. *)
Lemma unpackAnswers_one_A_record (hdr rest behind : list byte)
    (host : string) (answer : slice)
    (r : envelope * (byte * byte * byte * byte)) (more : list byte) :
  List.length hdr = 12%nat ->
  Forall wire_label (strings_Split host) ->
  elems answer = A_record_wire r ++ more ->
  unpackAnswers_one (mkSlice (hdr ++ encodeHost host ++ rest) behind) answer
  = Returned (Some (A_record_decoded host r)).
Proof.
  intros Hh Hok He. destruct r as [e [[[a b] c] d]].
  unfold A_record_wire in He. rewrite <- !app_assoc in He.
  assert (Hp : name_pointer answer = Returned 49164).
  { destruct answer as [el sp]. cbn [elems] in He. subst el.
    apply name_pointer_c00c. }
  unfold unpackAnswers_one, compressed. rewrite Hp. cbn [bind].
  change (49152 <? 49164) with true. cbv iota.
  rewrite (referenced_fqdn_question hdr rest behind host answer Hh Hok Hp).
  cbn [bind]. rewrite decode_encoded_labels by exact Hok. cbn [bind].
  destruct (envelope_fields answer xc0 x0c e _ He) as (Ht & Hc & Hl).
  rewrite Ht. cbn [bind]. rewrite Hc. cbn [bind]. rewrite Hl. cbn [bind].
  assert (H10 : reslice answer 10 12
                = Returned (mkSlice [x00; x04]
                              (([a; b; c; d] ++ more) ++ spare answer))).
  { apply (reslice_window answer 10 12 ([xc0; x0c] ++ envelope_bytes e)
             [x00; x04] ([a; b; c; d] ++ more)).
    - rewrite He, <- !app_assoc. reflexivity.
    - reflexivity.
    - reflexivity. }
  unfold rdata_slice. rewrite H10. cbn [bind].
  rewrite BigEndian_Uint16_two. cbn [bind].
  change (uint16_wrap (12 + (Z_of_byte x00 * 256 + Z_of_byte x04))) with 16.
  rewrite (reslice_window answer 12 16
             ([xc0; x0c] ++ envelope_bytes e ++ [x00; x04]) [a; b; c; d] more).
  - cbn [bind]. reflexivity.
  - rewrite He, <- !app_assoc. reflexivity.
  - reflexivity.
  - reflexivity.
Qed.

Lemma unpackAnswers_A_records (hdr rest behind : list byte) (host : string) :
  List.length hdr = 12%nat ->
  Forall wire_label (strings_Split host) ->
  forall (answers : list slice)
         (rs : list (envelope * (byte * byte * byte * byte))),
    map elems answers = map A_record_wire rs ->
    unpackAnswers (mkSlice (hdr ++ encodeHost host ++ rest) behind) answers
    = Returned (map (A_record_decoded host) rs).
Proof.
  intros Hh Hok. induction answers as [|answer answers IH]; intros rs Hm.
  - destruct rs; [reflexivity|discriminate].
  - destruct rs as [|r rs]; [discriminate|].
    cbn [map] in Hm. injection Hm as Ha Hm.
    rewrite unpackAnswers_cons.
    rewrite (unpackAnswers_one_A_record hdr rest behind host answer r [])
      by (try assumption; now rewrite app_nil_r).
    cbn [bind]. rewrite (IH rs Hm). reflexivity.
Qed.

Lemma header_unpacked_before_rest (h : dnsHeader)
    (rest behind : list byte) :
  header_in_range h ->
  unpackResponseHeader (mkSlice (packHeader h ++ rest) behind) = Returned h.
Proof.
  intros (H0 & H1 & H2 & H3 & H4 & H5).
  rewrite packHeader_bytes. unfold uint16ToByteSlice. cbn [app].
  pose proof (unpackResponseHeader_bytes
                (byte_of_Z (Z.shiftr (id h) 8)) (byte_of_Z (id h))
                (byte_of_Z (Z.shiftr (flags h) 8)) (byte_of_Z (flags h))
                (byte_of_Z (Z.shiftr (numQuestions h) 8))
                (byte_of_Z (numQuestions h))
                (byte_of_Z (Z.shiftr (numAnswers h) 8))
                (byte_of_Z (numAnswers h))
                (byte_of_Z (Z.shiftr (numAuthorityRR h) 8))
                (byte_of_Z (numAuthorityRR h))
                (byte_of_Z (Z.shiftr (numAdditionalRR h) 8))
                (byte_of_Z (numAdditionalRR h)) rest behind) as Hb.
  cbn [app] in Hb. rewrite Hb.
  rewrite !uint16ToByteSlice_value by assumption.
  destruct h; reflexivity.
Qed.

Lemma length_packHeader (h : dnsHeader) : List.length (packHeader h) = 12%nat.
Proof. rewrite packHeader_bytes. reflexivity. Qed.

Lemma length_A_record_wire (r : envelope * (byte * byte * byte * byte)) :
  List.length (A_record_wire r) = 16%nat.
Proof. destruct r as [e [[[a b] c] d]]. reflexivity. Qed.

(** X18: a whole reply of A records.  When the header passes the response
    check and declares as many answers as follow, the question holds a name
    whose labels have 1 to 255 bytes, and every answer is a 16-byte record
    with a pointer to offset 12, an rdlength of 4 and four address bytes,
    [main] decodes one record per answer, each named after the question and
    carrying its own type, class, ttl and address. *)
Theorem main_decode_A_records (h : dnsHeader) (host : string)
    (q1 q0 k1 k0 : byte)
    (rs : list (envelope * (byte * byte * byte * byte)))
    (behind : list byte) :
  header_in_range h ->
  checkResponse h = None ->
  rs <> [] ->
  numAnswers h = Z.of_nat (List.length rs) ->
  Forall wire_label (strings_Split host) ->
  main_decode
    (mkSlice (packHeader h ++ encodeHost host ++ [q1; q0; k1; k0]
                ++ List.concat (map A_record_wire rs)) behind)
  = Returned (Answers (map (A_record_decoded host) rs)).
Proof.
  intros Hr Hc Hne Hn Hok. unfold main_decode.
  rewrite header_unpacked_before_rest by exact Hr. cbn [bind].
  replace 12 with (Z.of_nat (List.length (packHeader h)))
    by (rewrite length_packHeader; reflexivity).
  rewrite reslice_from_prefix. cbn [bind]. rewrite Hc.
  assert (Hpos : (1 <= List.length rs)%nat)
    by (destruct rs; [contradiction|cbn; lia]).
  replace (numAnswers h =? 0) with false
    by (symmetry; apply Z.eqb_neq; lia).
  cbn [andb].
  destruct (question_skipped host q1 q0 k1 k0
              (List.concat (map A_record_wire rs)) behind Hok) as [_ Hi].
  destruct (extractAnswers_blocks _ _ 16 (map A_record_wire rs) Hi eq_refl)
    as [He Hm].
  - lia.
  - destruct rs; [contradiction|discriminate].
  - apply Forall_forall. intros w Hw. apply in_map_iff in Hw.
    destruct Hw as (r & <- & _). apply length_A_record_wire.
  - rewrite length_map in He, Hm. rewrite Hn, He. cbn [bind].
    rewrite (unpackAnswers_A_records (packHeader h)
               ([q1; q0; k1; k0] ++ List.concat (map A_record_wire rs))
               behind host (length_packHeader h) Hok _ rs Hm).
    reflexivity.
Qed.

Lemma main_decode_A_records_witness :
  header_in_range (mkHeader 22 33152 1 2 0 0)
  /\ Forall wire_label (strings_Split "a.bc")
  /\ main_decode
       (mkSlice
          (packHeader (mkHeader 22 33152 1 2 0 0) ++ encodeHost "a.bc"
             ++ [x00; x01; x00; x01]
             ++ List.concat
                  (map A_record_wire
                     [(mkEnvelope x00 x01 x00 x01 x00 x00 x00 x3c,
                       (x01, x02, x03, x04));
                      (mkEnvelope x00 x01 x00 x01 x00 x00 x01 x00,
                       (x05, x06, x07, x08))]))
          [])
     = Returned
         (Answers
            (map (A_record_decoded "a.bc")
               [(mkEnvelope x00 x01 x00 x01 x00 x00 x00 x3c,
                 (x01, x02, x03, x04));
                (mkEnvelope x00 x01 x00 x01 x00 x00 x01 x00,
                 (x05, x06, x07, x08))])).
Proof.
  assert (H1 : header_in_range (mkHeader 22 33152 1 2 0 0))
    by (unfold header_in_range, uint16_range; cbn; lia).
  assert (H2 : Forall wire_label (strings_Split "a.bc"))
    by (cbn; repeat (constructor; [unfold wire_label; cbn; lia|]);
        constructor).
  split; [exact H1|]. split; [exact H2|].
  assert (H3 : [(mkEnvelope x00 x01 x00 x01 x00 x00 x00 x3c,
                 (x01, x02, x03, x04));
                (mkEnvelope x00 x01 x00 x01 x00 x00 x01 x00,
                 (x05, x06, x07, x08))] <> []) by discriminate.
  exact (main_decode_A_records (mkHeader 22 33152 1 2 0 0) "a.bc"
           x00 x01 x00 x01 _ [] H1 eq_refl H3 eq_refl H2).
Defined.

(** ** What every returned record satisfies *)

Lemma reslice_length (s t : slice) (lo hi : Z) :
  reslice s lo hi = Returned t -> 0 <= lo <= hi /\ len t <= hi - lo.
Proof.
  unfold reslice.
  destruct ((0 <=? lo) && (lo <=? hi) && (hi <=? cap s)) eqn:C;
    [|discriminate].
  rewrite !andb_true_iff, !Z.leb_le in C. intros H. injection H as <-.
  unfold len. cbn [elems]. rewrite length_firstn. lia.
Qed.

Lemma decodeIP_returned (IP : slice) (ip : list byte) :
  decodeIP IP = Returned ip -> 4 <= len IP /\ List.length ip = 16%nat.
Proof.
  unfold decodeIP.
  destruct (index IP 0) as [a| | |]; cbn [bind]; try discriminate.
  destruct (index IP 1) as [b| | |]; cbn [bind]; try discriminate.
  destruct (index IP 2) as [c| | |]; cbn [bind]; try discriminate.
  destruct (index IP 3) as [d| | |] eqn:E3; cbn [bind]; try discriminate.
  intros H. injection H as <-. apply index_Returned_range in E3.
  split; [lia|reflexivity].
Qed.

Lemma BigEndian_Uint32_range (b : slice) (v : Z) :
  BigEndian_Uint32 b = Returned v -> 0 <= v < 4294967296.
Proof.
  unfold BigEndian_Uint32.
  destruct (index b 3) as [b3| | |]; cbn [bind]; try discriminate.
  destruct (index b 2) as [b2| | |]; cbn [bind]; try discriminate.
  destruct (index b 1) as [b1| | |]; cbn [bind]; try discriminate.
  destruct (index b 0) as [b0| | |]; cbn [bind]; try discriminate.
  pose proof (Z_of_byte_range b0). pose proof (Z_of_byte_range b1).
  pose proof (Z_of_byte_range b2). pose proof (Z_of_byte_range b3).
  rewrite (lor_shiftl_add (Z_of_byte b3) (Z_of_byte b2) 8)
    by (change (2 ^ 8) with 256; lia).
  rewrite (lor_shiftl_add _ (Z_of_byte b1) 16)
    by (change (2 ^ 8) with 256; change (2 ^ 16) with 65536; lia).
  rewrite (lor_shiftl_add _ (Z_of_byte b0) 24)
    by (change (2 ^ 8) with 256; change (2 ^ 16) with 65536;
        change (2 ^ 24) with 16777216; lia).
  change (2 ^ 8) with 256. change (2 ^ 16) with 65536.
  change (2 ^ 24) with 16777216.
  intros Hv. injection Hv as <-. lia.
Qed.

Lemma unpackAnswers_one_in_bounds (message answer : slice)
    (r : resourceRecordIPv4) :
  unpackAnswers_one message answer = Returned (Some r) ->
  record_in_bounds r.
Proof.
  unfold unpackAnswers_one, rdata_slice.
  destruct (compressed answer) as [[|]| | |]; cbn [bind]; try discriminate.
  destruct (referenced_fqdn message answer) as [fqdn| | |]; cbn [bind];
    try discriminate.
  destruct (decodeHost fqdn) as [nm| | |]; cbn [bind]; try discriminate.
  destruct (reslice answer 2 4) as [b2| | |]; cbn [bind]; try discriminate.
  destruct (BigEndian_Uint16 b2) as [ty| | |] eqn:Ety; cbn [bind];
    try discriminate.
  destruct (reslice answer 4 6) as [b4| | |]; cbn [bind]; try discriminate.
  destruct (BigEndian_Uint16 b4) as [cl| | |] eqn:Ecl; cbn [bind];
    try discriminate.
  destruct (reslice answer 6 10) as [b6| | |]; cbn [bind]; try discriminate.
  destruct (BigEndian_Uint32 b6) as [tt| | |] eqn:Ett; cbn [bind];
    try discriminate.
  destruct (reslice answer 10 12) as [b10| | |]; cbn [bind];
    try discriminate.
  destruct (BigEndian_Uint16 b10) as [rdlen| | |] eqn:Erd; cbn [bind];
    try discriminate.
  destruct (reslice answer 12 (uint16_wrap (12 + rdlen))) as [rd| | |] eqn:Es;
    cbn [bind]; try discriminate.
  destruct (decodeIP rd) as [ip| | |] eqn:Eip; cbn [bind]; try discriminate.
  intros H. injection H as <-.
  apply BigEndian_Uint16_range in Ety, Ecl, Erd.
  apply BigEndian_Uint32_range in Ett.
  apply reslice_length in Es. apply decodeIP_returned in Eip.
  unfold record_in_bounds. cbn [RDLength RDData recordType recordClass TTL].
  unfold uint16_range in *. unfold uint16_wrap in Es.
  repeat split; try tauto; try lia.
  - destruct (Z.ltb_spec (12 + rdlen) 65536) as [Hs|Hs].
    + rewrite Z.mod_small in Es by lia. lia.
    + replace ((12 + rdlen) mod 65536) with (12 + rdlen - 65536) in Es
        by (apply Z.mod_unique with 1; lia).
      lia.
  - destruct (Z.ltb_spec (12 + rdlen) 65536) as [Hs|Hs]; [lia|].
    replace ((12 + rdlen) mod 65536) with (12 + rdlen - 65536) in Es
      by (apply Z.mod_unique with 1; lia).
    lia.
Qed.

(** X19: every record that [unpackAnswers] returns has an rdlength of 4
    to 65523 and a 16-byte address, with type and class within 16 bits and
    ttl within 32, whatever the record type says; an answer with shorter
    data makes the call panic instead.  No more records come back than
    answers went in. *)
Theorem unpackAnswers_records_in_bounds (message : slice) :
  forall (answers : list slice) (records : list resourceRecordIPv4),
    unpackAnswers message answers = Returned records ->
    Forall record_in_bounds records
    /\ (List.length records <= List.length answers)%nat.
Proof.
  induction answers as [|a rest IH]; intros records H.
  - injection H as <-. split; [constructor|cbn; lia].
  - rewrite unpackAnswers_cons in H.
    destruct (unpackAnswers_one message a) as [r| | |] eqn:E1;
      cbn [bind] in H; try discriminate.
    destruct (unpackAnswers message rest) as [rs| | |]; cbn [bind] in H;
      try discriminate.
    injection H as <-. destruct (IH rs eq_refl) as [HF HL].
    destruct r as [r|]; cbn [app List.length].
    + split; [|lia]. constructor; [|exact HF].
      eapply unpackAnswers_one_in_bounds; exact E1.
    + split; [exact HF|lia].
Qed.

Lemma unpackAnswers_records_in_bounds_witness :
  unpackAnswers mixed_reply
    [mkSlice (bytes_of (sample_A 12)) (bytes_of sample_AAAA)]
  = Returned [mkRRIPv4 "a" 1 1 60 4
                (net_IPv4 x01 x02 x03 x04)]
  /\ Forall record_in_bounds
            [mkRRIPv4 "a" 1 1 60 4 (net_IPv4 x01 x02 x03 x04)].
Proof.
  assert (H : unpackAnswers mixed_reply
                [mkSlice (bytes_of (sample_A 12)) (bytes_of sample_AAAA)]
              = Returned [mkRRIPv4 "a" 1 1 60 4
                            (net_IPv4 x01 x02 x03 x04)])
    by (vm_compute; reflexivity).
  split; [exact H|].
  exact (proj1 (unpackAnswers_records_in_bounds mixed_reply _ _ H)).
Defined.

(** ** A referral *)

Lemma uint16ToByteSlice_read (number : Z) (rest : list byte) :
  uint16_range number ->
  exists hi lo, uint16ToByteSlice number = [hi; lo]
                /\ BigEndian_Uint16 (mkSlice [hi; lo] rest) = Returned number.
Proof.
  intros H. exists (byte_of_Z (Z.shiftr number 8)), (byte_of_Z number).
  split; [reflexivity|].
  rewrite BigEndian_Uint16_two. f_equal.
  now apply uint16ToByteSlice_value.
Qed.

Lemma unpackAuthorityAnswer_NS_record (hdr rest behind : list byte)
    (host target : string) (answer : slice) (e : envelope)
    (more : list byte) :
  List.length hdr = 12%nat ->
  Forall wire_label (strings_Split host) ->
  Forall wire_label (strings_Split target) ->
  Z.of_nat (String.length target) + 14 < 65536 ->
  elems answer = NS_record_wire e target ++ more ->
  unpackAuthorityAnswer (mkSlice (hdr ++ encodeHost host ++ rest) behind)
    answer
  = Returned (mkRRNS host (envelope_type e) (envelope_class e)
                (envelope_ttl e)
                (Z.of_nat (List.length (encodeHost target))) target).
Proof.
  intros Hh Hok Hokt Hlen He.
  assert (HL : List.length (encodeHost target)
               = (String.length target + 2)%nat).
  { rewrite encodeHost_flat_map, length_app, length_encoded_sections.
    cbn [List.length]. lia. }
  destruct (uint16ToByteSlice_read
              (Z.of_nat (List.length (encodeHost target)))
              ((encodeHost target ++ more) ++ spare answer))
    as (r1 & r0 & Hb & Hv); [unfold uint16_range; lia|].
  unfold NS_record_wire in He. rewrite Hb in He.
  rewrite <- !app_assoc in He.
  assert (Hp : name_pointer answer = Returned 49164).
  { destruct answer as [el sp]. cbn [elems] in He. subst el.
    apply name_pointer_c00c. }
  unfold unpackAuthorityAnswer, compressed. rewrite Hp. cbn [bind].
  change (49152 <? 49164) with true. cbv iota.
  rewrite (referenced_fqdn_question hdr rest behind host answer Hh Hok Hp).
  cbn [bind]. rewrite decode_encoded_labels by exact Hok. cbn [bind].
  destruct (envelope_fields answer xc0 x0c e _ He) as (Ht & Hc & Hl).
  rewrite Ht. cbn [bind]. rewrite Hc. cbn [bind]. rewrite Hl. cbn [bind].
  assert (H10 : reslice answer 10 12
                = Returned (mkSlice [r1; r0]
                              ((encodeHost target ++ more) ++ spare answer))).
  { apply (reslice_window answer 10 12 ([xc0; x0c] ++ envelope_bytes e)
             [r1; r0] (encodeHost target ++ more)).
    - rewrite He, <- !app_assoc. reflexivity.
    - reflexivity.
    - reflexivity. }
  unfold rdata_slice. rewrite H10. cbn [bind]. rewrite Hv. cbn [bind].
  unfold uint16_wrap. rewrite Z.mod_small by lia.
  rewrite (reslice_window answer 12 _
             ([xc0; x0c] ++ envelope_bytes e ++ [r1; r0])
             (encodeHost target) more).
  - cbn [bind]. rewrite decode_encoded_labels by exact Hokt. reflexivity.
  - rewrite He, <- !app_assoc. reflexivity.
  - reflexivity.
  - reflexivity.
Qed.

(** X20: a referral.  When the header passes the response check and
    declares no answer and at least one authority record, the question holds
    a name whose labels have 1 to 255 bytes, and the first record behind it
    has a pointer to offset 12 as its name and a name written out in labels
    as its data, [main] decodes exactly that record, named after the
    question, and looks at nothing behind it. *)
Theorem main_decode_referral (h : dnsHeader) (host target : string)
    (q1 q0 k1 k0 : byte) (e : envelope) (more behind : list byte) :
  header_in_range h ->
  checkResponse h = None ->
  numAnswers h = 0 -> 0 < numAuthorityRR h ->
  Forall wire_label (strings_Split host) ->
  Forall wire_label (strings_Split target) ->
  Z.of_nat (String.length target) + 14 < 65536 ->
  main_decode
    (mkSlice (packHeader h ++ encodeHost host ++ [q1; q0; k1; k0]
                ++ NS_record_wire e target ++ more) behind)
  = Returned
      (AuthorityAnswer
         (mkRRNS host (envelope_type e) (envelope_class e) (envelope_ttl e)
                 (Z.of_nat (List.length (encodeHost target))) target)).
Proof.
  intros Hr Hc Hn Ha Hok Hokt Hlen. unfold main_decode.
  rewrite header_unpacked_before_rest by exact Hr. cbn [bind].
  replace 12 with (Z.of_nat (List.length (packHeader h)))
    by (rewrite length_packHeader; reflexivity).
  rewrite reslice_from_prefix. cbn [bind]. rewrite Hc, Hn.
  replace (0 <? numAuthorityRR h) with true
    by (symmetry; apply Z.ltb_lt; lia).
  cbn [Z.eqb andb].
  destruct (question_skipped host q1 q0 k1 k0
              (NS_record_wire e target ++ more) behind Hok) as [Hq _].
  rewrite Hq. cbn [bind].
  rewrite (unpackAuthorityAnswer_NS_record (packHeader h)
             ([q1; q0; k1; k0] ++ NS_record_wire e target ++ more) behind
             host target (mkSlice (NS_record_wire e target ++ more) behind)
             e more (length_packHeader h) Hok Hokt Hlen eq_refl).
  reflexivity.
Qed.

Lemma main_decode_referral_witness :
  header_in_range (mkHeader 22 33152 1 0 2 0)
  /\ Forall wire_label (strings_Split "com")
  /\ Forall wire_label (strings_Split "a.gtld-servers.net")
  /\ main_decode
       (mkSlice
          (packHeader (mkHeader 22 33152 1 0 2 0) ++ encodeHost "com"
             ++ [x00; x01; x00; x01]
             ++ NS_record_wire
                  (mkEnvelope x00 x02 x00 x01 x00 x02 xa3 x00)
                  "a.gtld-servers.net"
             ++ [xc0; x0c]) [])
     = Returned
         (AuthorityAnswer
            (mkRRNS "com" 2 1 172800 20 "a.gtld-servers.net")).
Proof.
  assert (H1 : header_in_range (mkHeader 22 33152 1 0 2 0))
    by (unfold header_in_range, uint16_range; cbn; lia).
  assert (H2 : Forall wire_label (strings_Split "com"))
    by (cbn; repeat (constructor; [unfold wire_label; cbn; lia|]);
        constructor).
  assert (H3 : Forall wire_label (strings_Split "a.gtld-servers.net"))
    by (cbn; repeat (constructor; [unfold wire_label; cbn; lia|]);
        constructor).
  split; [exact H1|]. split; [exact H2|]. split; [exact H3|].
  exact (main_decode_referral (mkHeader 22 33152 1 0 2 0) "com"
           "a.gtld-servers.net" x00 x01 x00 x01
           (mkEnvelope x00 x02 x00 x01 x00 x02 xa3 x00) [xc0; x0c] []
           H1 eq_refl eq_refl ltac:(cbn; lia) H2 H3 ltac:(cbn; lia)).
Defined.

(** ** The query, read back *)

(** X21: what the program packs, its own readers parse back.  For a
    header and a question within 16 bits and a name whose labels have 1 to
    255 bytes, the packed query has [len(host) + 18] bytes; its header
    unpacks to the header, and behind the header [domainLength] measures the
    name, [decodeHost] returns it, and the two fields after it are type and
    class. *)
Theorem packMessage_parses (h : dnsHeader) (host : string) (qt qc : Z)
    (behind : list byte) :
  header_in_range h -> uint16_range qt -> uint16_range qc ->
  Forall wire_label (strings_Split host) ->
  let message :=
    mkSlice (packMessage (packHeader h)
               (packQuestion (mkQuestion (encodeHost host) qt qc))) behind in
  len message = Z.of_nat (String.length host) + 18
  /\ unpackResponseHeader message = Returned h
  /\ (question <- reslice_from message 12 ;;
      n <- domainLength question ;;
      name <- decodeHost question ;;
      t <- (b <- reslice question n (n + 2) ;; BigEndian_Uint16 b) ;;
      c <- (b <- reslice question (n + 2) (n + 4) ;; BigEndian_Uint16 b) ;;
      Returned (n, name, t, c))
     = Returned (Z.of_nat (String.length host) + 2, host, qt, qc).
Proof.
  intros Hr Ht Hc Hok message.
  assert (HL : List.length (encodeHost host) = (String.length host + 2)%nat).
  { rewrite encodeHost_flat_map, length_app, length_encoded_sections.
    cbn [List.length]. lia. }
  destruct (uint16ToByteSlice_read qt (uint16ToByteSlice qc ++ behind) Ht)
    as (t1 & t0 & Et & Vt).
  destruct (uint16ToByteSlice_read qc ([] ++ behind) Hc)
    as (c1 & c0 & Ec & Vc).
  unfold message, packMessage, packQuestion. cbn [qName qType qClass].
  split; [|split].
  - unfold len. cbn [elems]. rewrite !length_app, length_packHeader, HL.
    cbn [List.length uint16ToByteSlice]. lia.
  - now apply header_unpacked_before_rest.
  - replace 12 with (Z.of_nat (List.length (packHeader h)))
      by (rewrite length_packHeader; reflexivity).
    rewrite reslice_from_prefix. cbn [bind].
    rewrite encodeHost_app, domainLength_labels by exact Hok. cbn [bind].
    rewrite decodeHost_labels by exact Hok. cbn [bind].
    rewrite <- encodeHost_app, strings_Join_Split.
    rewrite length_encoded_sections.
    rewrite (reslice_window _ _ _ (encodeHost host) (uint16ToByteSlice qt)
               (uint16ToByteSlice qc))
      by (try reflexivity; cbn [elems List.length uint16ToByteSlice]; lia).
    cbn [bind spare]. rewrite Et in *. rewrite Vt. cbn [bind].
    rewrite (reslice_window _ _ _ (encodeHost host ++ [t1; t0])
               (uint16ToByteSlice qc) [])
      by (cbn [elems]; rewrite ?length_app, ?app_nil_r, <- ?app_assoc;
          cbn [List.length uint16ToByteSlice]; try reflexivity; lia).
    cbn [bind spare]. rewrite Ec. rewrite Vc. cbn [bind].
    replace (Z.of_nat (S (String.length host)) + 1)
      with (Z.of_nat (String.length host) + 2) by lia.
    reflexivity.
Qed.

Lemma packMessage_parses_witness :
  header_in_range (mkHeader 22 0 1 0 0 0)
  /\ Forall wire_label (strings_Split host)
  /\ unpackResponseHeader (mkSlice (main_message (fun _ => 0)) [])
     = Returned (mkHeader 22 0 1 0 0 0).
Proof.
  assert (H1 : header_in_range (mkHeader 22 0 1 0 0 0))
    by (unfold header_in_range, uint16_range; cbn; lia).
  assert (H2 : Forall wire_label (strings_Split host))
    by (cbn; repeat (constructor; [unfold wire_label; cbn; lia|]);
        constructor).
  split; [exact H1|]. split; [exact H2|].
  exact (proj1 (proj2 (packMessage_parses (mkHeader 22 0 1 0 0 0) host 1 1 []
                         H1 ltac:(unfold uint16_range; lia)
                         ltac:(unfold uint16_range; lia) H2))).
Defined.
